(** * Screenshot classifier: feature extraction and heuristic scoring

    A shallow embedding of [src/features.py] and [src/heuristics.py],
    with [run_ocr] of [src/ocr.py] and the loop of [src/eval.py] that feed
    them.

    Conventions of the embedding.
    - A Python [str] is the list of its code points ([N]); [len] is the
      length of that list.
    - A Python [int] is a [Z].
    - A Python [float] is a [Q].  Every float the program builds is either
      a sum of the literals 1.0, 2.0, 3.0 and -2.0 (exact in binary
      floating point) or the quotient [sum / line_count] of two integers,
      which is only ever compared with 0.0 and 40; correctly rounded
      division preserves both comparisons for any list of fewer than 2^48
      lines, so the exact quotient stands for it.  A NaN or an infinity
      handed in from outside only ever meets a comparison, where it acts
      as some rational does.
    - A [dict] is an association list in insertion order, which is the
      order Python iterates it in.
    - A call that can raise returns [option]; [None] stands for the
      exception.
    - The behaviour of [str.lower], [str.split] and of the [re] classes on
      code points below 256 is written out; above that it is read from a
      [UnicodeData] value the development is parametrised by. *)

From Stdlib Require Import ZArith NArith QArith Qminmax List String Ascii Bool Lia Lqa.
Import ListNotations.

Set Implicit Arguments.

(** ** Python strings *)

Module PyStr.

Definition str := list N.

(** Literals: the code points of an ASCII string. *)
Definition lit (s : string) : str :=
  List.map N_of_ascii (list_ascii_of_string s).

Definition len (s : str) : Z := Z.of_nat (List.length s).

Definition EM_DASH : N := 0x2014%N.
Definition BULLET : N := 0x2022%N.
Definition TIMES : N := 0xD7%N.
Definition DEGREE : N := 0xB0%N.

(** The part of the Unicode character database that lies above Latin-1. *)
Record UnicodeData := {
  (* str.lower at index i of s, when s[i] >= 256 (may depend on the
     context, as for the Greek final sigma, and may yield two points) *)
  uni_tolower : str -> nat -> N -> str;
  uni_isspace : N -> bool;
  uni_isdecimal : N -> bool;
  uni_isalnum : N -> bool;
  (* re.IGNORECASE: does the text point (>= 256) match the pattern
     literal *)
  uni_icase : N -> N -> bool
}.

(** A database with nothing above Latin-1: used to run examples. *)
Definition latin1_only : UnicodeData := {|
  uni_tolower := fun _ _ c => [c];
  uni_isspace := fun _ => false;
  uni_isdecimal := fun _ => false;
  uni_isalnum := fun _ => false;
  uni_icase := fun c l => N.eqb c l
|}.

Definition in_range (lo hi c : N) : bool := (lo <=? c)%N && (c <=? hi)%N.

(** Lower-casing below 256: A-Z, and U+00C0..U+00DE except U+00D7. *)
Definition latin1_lower (c : N) : N :=
  if in_range 0x41 0x5A c then (c + 32)%N
  else if in_range 0xC0 0xDE c && negb (c =? TIMES)%N then (c + 32)%N
  else c.

Definition latin1_isspace (c : N) : bool :=
  in_range 0x09 0x0D c || in_range 0x1C 0x20 c || (c =? 0x85)%N || (c =? 0xA0)%N.

Definition latin1_isdecimal (c : N) : bool := in_range 0x30 0x39 c.

Definition latin1_isalnum (c : N) : bool :=
  in_range 0x30 0x39 c || in_range 0x41 0x5A c || in_range 0x61 0x7A c
  || (c =? 0xAA)%N || (c =? 0xB2)%N || (c =? 0xB3)%N || (c =? 0xB5)%N
  || (c =? 0xB9)%N || (c =? 0xBA)%N || in_range 0xBC 0xBE c
  || in_range 0xC0 0xD6 c || in_range 0xD8 0xF6 c || in_range 0xF8 0xFF c.

Section WithUnicode.
Variable ucd : UnicodeData.

Definition isspace (c : N) : bool :=
  if (c <? 256)%N then latin1_isspace c else uni_isspace ucd c.

(** [\d] *)
Definition isdecimal (c : N) : bool :=
  if (c <? 256)%N then latin1_isdecimal c else uni_isdecimal ucd c.

(** [\w] *)
Definition isword (c : N) : bool :=
  if (c <? 256)%N then latin1_isalnum c || (c =? 0x5F)%N
  else uni_isalnum ucd c || (c =? 0x5F)%N.

(** A pattern literal under re.IGNORECASE. *)
Definition icase (l c : N) : bool :=
  if (c <? 256)%N then (latin1_lower c =? latin1_lower l)%N
  else uni_icase ucd c l.

(** [s.lower()] *)
Fixpoint lower_from (s : str) (i : nat) (rest : str) : str :=
  match rest with
  | [] => []
  | c :: rest' =>
      (if (c <? 256)%N then [latin1_lower c] else uni_tolower ucd s i c)
        ++ lower_from s (S i) rest'
  end.

Definition lower (s : str) : str := lower_from s 0 s.

(** [s.split()]: the maximal runs of non-whitespace.  [cur] is the
    word being read, reversed. *)
Fixpoint split_from (cur : str) (s : str) : list str :=
  match s with
  | [] => match cur with [] => [] | _ => [rev cur] end
  | c :: s' =>
      if isspace c
      then match cur with
           | [] => split_from [] s'
           | _ => rev cur :: split_from [] s'
           end
      else split_from (c :: cur) s'
  end.

Definition split (s : str) : list str := split_from [] s.

End WithUnicode.

Fixpoint startswith (p s : str) : bool :=
  match p, s with
  | [], _ => true
  | _ :: _, [] => false
  | a :: p', b :: s' => (a =? b)%N && startswith p' s'
  end.

(** [needle in hay] *)
Fixpoint contains (needle hay : str) : bool :=
  startswith needle hay
  || match hay with
     | [] => false
     | _ :: hay' => contains needle hay'
     end.

End PyStr.

(** ** Regular expressions

    Only the truth value of [pattern.match(s)] and [pattern.search(s)] is
    used by the program, so a pattern is modelled by its language and
    matched with derivatives. *)

Module Re.
Import PyStr.

Inductive regex : Type :=
| Void : regex
| Eps : regex
| Cls : (N -> bool) -> regex
| Cat : regex -> regex -> regex
| Alt : regex -> regex -> regex
| Star : regex -> regex.

(** [r+] *)
Definition Plus (r : regex) : regex := Cat r (Star r).

(** A literal word, each point read through [cls]. *)
Fixpoint Word (cls : N -> N -> bool) (w : str) : regex :=
  match w with
  | [] => Eps
  | c :: w' => Cat (Cls (cls c)) (Word cls w')
  end.

(** [[...]]: any of the listed points. *)
Definition one_of (cs : list N) (c : N) : bool := existsb (N.eqb c) cs.

Fixpoint nullable (r : regex) : bool :=
  match r with
  | Void => false
  | Eps => true
  | Cls _ => false
  | Cat r1 r2 => nullable r1 && nullable r2
  | Alt r1 r2 => nullable r1 || nullable r2
  | Star _ => true
  end.

Fixpoint deriv (c : N) (r : regex) : regex :=
  match r with
  | Void => Void
  | Eps => Void
  | Cls p => if p c then Eps else Void
  | Cat r1 r2 =>
      if nullable r1
      then Alt (Cat (deriv c r1) r2) (deriv c r2)
      else Cat (deriv c r1) r2
  | Alt r1 r2 => Alt (deriv c r1) (deriv c r2)
  | Star r1 => Cat (deriv c r1) (Star r1)
  end.

(** [pattern.match(s) is not None]: some prefix of [s] is in the
    language.  A leading [^] is implied. *)
Fixpoint re_match (r : regex) (s : str) : bool :=
  nullable r
  || match s with
     | [] => false
     | c :: s' => re_match (deriv c r) s'
     end.

(** [pattern.search(s) is not None]: a match starts somewhere in [s]. *)
Fixpoint re_search (r : regex) (s : str) : bool :=
  re_match r s
  || match s with
     | [] => false
     | _ :: s' => re_search r s'
     end.

(** The language of a pattern, to state what the matcher decides. *)
Inductive matches : regex -> str -> Prop :=
| MEps : matches Eps []
| MCls : forall p c, p c = true -> matches (Cls p) [c]
| MCat : forall r1 r2 s1 s2,
    matches r1 s1 -> matches r2 s2 -> matches (Cat r1 r2) (s1 ++ s2)
| MAltL : forall r1 r2 s, matches r1 s -> matches (Alt r1 r2) s
| MAltR : forall r1 r2 s, matches r2 s -> matches (Alt r1 r2) s
| MStar0 : forall r, matches (Star r) []
| MStarS : forall r s1 s2,
    matches r s1 -> matches (Star r) s2 -> matches (Star r) (s1 ++ s2).

End Re.

(** ** Python built-ins the program uses *)

Module Py.

(** [sum(xs)] over integers: a left fold from 0. *)
Definition sum (xs : list Z) : Z := fold_left Z.add xs 0%Z.

(** [sum(1 for x in xs if p(x))] *)
Definition count_if {A : Type} (p : A -> bool) (xs : list A) : Z :=
  sum (map (fun _ => 1%Z) (filter p xs)).

(** [any(p(x) for x in xs)] *)
Definition any {A : Type} (p : A -> bool) (xs : list A) : bool := existsb p xs.

(** [x < y] on floats. *)
Definition Qlt_bool (x y : Q) : bool := negb (Qle_bool y x).

(** A [dict] with string keys, in insertion order. *)
Definition dict (V : Type) := list (string * V).

Fixpoint dict_get {V : Type} (d : dict V) (k : string) : option V :=
  match d with
  | [] => None
  | (k', v) :: d' => if String.eqb k' k then Some v else dict_get d' k
  end.

Definition dict_keys {V : Type} (d : dict V) : list string := map fst d.

Definition bind {A B : Type} (m : option A) (f : A -> option B) : option B :=
  match m with
  | Some a => f a
  | None => None
  end.

(** [max(xs, key=key)]: the running maximum is replaced only by a
    strictly greater key, so the first maximal item wins.  Raises on an
    empty [xs]. *)
Fixpoint max_loop {A : Type} (key : A -> option Q)
    (maxitem : A) (maxval : Q) (rest : list A) : option A :=
  match rest with
  | [] => Some maxitem
  | item :: rest' =>
      bind (key item) (fun val =>
        if Qlt_bool maxval val
        then max_loop key item val rest'
        else max_loop key maxitem maxval rest')
  end.

Definition max {A : Type} (key : A -> option Q) (xs : list A) : option A :=
  match xs with
  | [] => None
  | item :: rest => bind (key item) (fun val => max_loop key item val rest)
  end.

End Py.

Notation "x <- m ;; k" := (Py.bind m (fun x => k))
  (at level 61, m at next level, right associativity).

(** ** [src/ocr.py]: the record the extractor reads *)

Module Ocr.
Import PyStr.

Record OcrResult := {
  full_text : str;
  lines : list str
}.

End Ocr.

(** ** [src/features.py] *)

Module Features.
Import PyStr Re Ocr.

Definition MEASURE_UNITS : list str :=
  [lit "g"; lit "kg"; lit "ml"; lit "l"; lit "tbsp"; lit "tsp"; lit "cup";
   lit "cups"; lit "oz"; DEGREE :: lit "c"; DEGREE :: lit "f"].
Definition COOKING_VERBS : list str :=
  [lit "preheat"; lit "mix"; lit "stir"; lit "bake"; lit "boil";
   lit "simmer"; lit "chop"; lit "fry"; lit "whisk"; lit "serve"].
Definition INGREDIENT_SECTION_TERMS : list str :=
  [lit "ingredients"; lit "serves"; lit "makes"; lit "yield"].
Definition STEP_TERMS : list str :=
  [lit "instructions"; lit "method"; lit "directions"; lit "steps"].
Definition WORKOUT_TERMS : list str :=
  [lit "sets"; lit "reps"; lit "rest"; lit "warm-up"; lit "cooldown";
   lit "amrap"; lit "emom"; lit "rounds"].
Definition WORKOUT_BODY_PARTS : list str :=
  [lit "legs"; lit "chest"; lit "back"; lit "shoulders"; lit "glutes";
   lit "core"; lit "abs"].

(** The list literal of the source reads
    [EM DASH], [-], then a triple-quoted string holding a comma and a
    space, then the double quote: four strings. *)
Definition QUOTE_MARKERS : list str :=
  [[EM_DASH]; lit "-"; lit ", "; [0x22%N]].

Record LayoutFeatures := {
  line_count : Z;
  bullet_lines : Z;
  numbered_lines : Z;
  avg_line_length : Q
}.

Record Features := {
  ocr : OcrResult;
  layout : LayoutFeatures;
  num_units : Z;
  num_cooking_verbs : Z;
  num_workout_terms : Z;
  num_body_parts : Z;
  has_ingredients_section : bool;
  has_steps_section : bool;
  has_quote_author_pattern : bool;
  quote_mark_count : Z
}.

Section WithUnicode.
Variable ucd : UnicodeData.

Let ws : regex := Cls (isspace ucd).
Let digit : regex := Cls (isdecimal ucd).
Let word : regex := Cls (isword ucd).

(** [^[\s]*[•\-\*\+]\s+] *)
Definition bullet_pattern : regex :=
  Cat (Star ws)
    (Cat (Cls (one_of [BULLET; 0x2D; 0x2A; 0x2B]%N)) (Plus ws)).

(** [^[\s]*\d+[\.\)]\s+] *)
Definition numbered_pattern : regex :=
  Cat (Star ws)
    (Cat (Plus digit) (Cat (Cls (one_of [0x2E; 0x29]%N)) (Plus ws))).

(** [^[\s]*[—\-]\s+\w+\s+\w+] *)
Definition quote_author_pattern : regex :=
  Cat (Star ws)
    (Cat (Cls (one_of [EM_DASH; 0x2D]%N))
       (Cat (Plus ws) (Cat (Plus word) (Cat (Plus ws) (Plus word))))).

Definition compute_layout_features (o : OcrResult) : LayoutFeatures :=
  let lines := lines o in
  let line_count := Z.of_nat (List.length lines) in
  let bullet_lines := Py.count_if (re_match bullet_pattern) lines in
  let numbered_lines := Py.count_if (re_match numbered_pattern) lines in
  let avg_line_length :=
    if (0 <? line_count)%Z
    then inject_Z (Py.sum (map len lines)) / inject_Z line_count
    else 0 in
  {| line_count := line_count;
     bullet_lines := bullet_lines;
     numbered_lines := numbered_lines;
     avg_line_length := avg_line_length |}.

(** [any(term.lower() in line.lower() for line in ocr.lines)] *)
Definition in_any_line (o : OcrResult) (term : str) : bool :=
  Py.any (fun line => contains (lower ucd term) (lower ucd line)) (lines o).

Definition compute_features (o : OcrResult) : Features :=
  let layout := compute_layout_features o in
  let text_lower := lower ucd (full_text o) in
  let num_units :=
    Py.count_if (fun unit => contains (lower ucd unit) text_lower)
      MEASURE_UNITS in
  let num_cooking_verbs := Py.count_if (in_any_line o) COOKING_VERBS in
  let num_workout_terms := Py.count_if (in_any_line o) WORKOUT_TERMS in
  let num_body_parts := Py.count_if (in_any_line o) WORKOUT_BODY_PARTS in
  let has_ingredients_section :=
    Py.any (fun term => contains (lower ucd term) text_lower)
      INGREDIENT_SECTION_TERMS in
  let has_steps_section :=
    Py.any (fun term => contains (lower ucd term) text_lower) STEP_TERMS in
  let has_quote_author_pattern :=
    Py.any (re_match quote_author_pattern) (lines o) in
  let quote_mark_count :=
    Py.count_if (fun marker => contains marker (full_text o))
      QUOTE_MARKERS in
  {| ocr := o;
     layout := layout;
     num_units := num_units;
     num_cooking_verbs := num_cooking_verbs;
     num_workout_terms := num_workout_terms;
     num_body_parts := num_body_parts;
     has_ingredients_section := has_ingredients_section;
     has_steps_section := has_steps_section;
     has_quote_author_pattern := has_quote_author_pattern;
     quote_mark_count := quote_mark_count |}.

End WithUnicode.

End Features.


(** ** [src/heuristics.py] *)

Module Heuristics.
Import PyStr Re Ocr Features.
Open Scope Q_scope.

Record ClassificationResult := {
  item_type : string;
  scores : Py.dict Q;
  threshold : Q
}.

Section WithUnicode.
Variable ucd : UnicodeData.

(** [(serves|makes)\s+\d+], re.IGNORECASE *)
Definition serves_pattern : regex :=
  Cat (Alt (Word (icase ucd) (lit "serves")) (Word (icase ucd) (lit "makes")))
    (Cat (Plus (Cls (isspace ucd))) (Plus (Cls (isdecimal ucd)))).

(** [\d+\s*[x×]\s*\d+], re.IGNORECASE *)
Definition workout_pattern : regex :=
  Cat (Plus (Cls (isdecimal ucd)))
    (Cat (Star (Cls (isspace ucd)))
       (Cat (Cls (fun c => icase ucd 0x78%N c || icase ucd TIMES c))
          (Cat (Star (Cls (isspace ucd))) (Plus (Cls (isdecimal ucd)))))).

Definition score_recipe (feats : Features) : Q :=
  let score := 0 in
  let score := if has_ingredients_section feats then score + 3 else score in
  let score := if (3 <=? num_units feats)%Z then score + 2 else score in
  let score := if (2 <=? num_cooking_verbs feats)%Z then score + 2 else score in
  let score :=
    if (3 <=? bullet_lines (layout feats))%Z then score + 1 else score in
  let score :=
    if (2 <=? numbered_lines (layout feats))%Z then score + 1 else score in
  let score :=
    if Py.any (re_search serves_pattern) (lines (ocr feats))
    then score + 1 else score in
  score.

Definition score_workout (feats : Features) : Q :=
  let score := 0 in
  let sets_reps_count :=
    Py.count_if
      (fun line => contains (lit "sets") (lower ucd line)
                   || contains (lit "reps") (lower ucd line))
      (lines (ocr feats)) in
  let score := if (2 <=? sets_reps_count)%Z then score + 3 else score in
  let score :=
    if Py.any (re_search workout_pattern) (lines (ocr feats))
    then score + 2 else score in
  let score := if (2 <=? num_workout_terms feats)%Z then score + 2 else score in
  let score := if (0 <? num_body_parts feats)%Z then score + 1 else score in
  let score :=
    if (2 <=? bullet_lines (layout feats))%Z
       || (2 <=? numbered_lines (layout feats))%Z
    then score + 1 else score in
  let score := if has_ingredients_section feats then score - 2 else score in
  score.

(** The [for] loop of [score_quote]: the first line with a quote marker
    and four words or more adds 2.0 and leaves the loop. *)
Fixpoint quote_line_loop (lines : list str) (score : Q) : Q :=
  match lines with
  | [] => score
  | line :: rest =>
      let word_count := Z.of_nat (List.length (split ucd line)) in
      let has_quote_mark :=
        Py.any (fun marker => contains marker line) QUOTE_MARKERS in
      if has_quote_mark && (4 <=? word_count)%Z
      then score + 2
      else quote_line_loop rest score
  end.

Definition score_quote (feats : Features) : Q :=
  let score := 0 in
  let score := quote_line_loop (lines (ocr feats)) score in
  let score := if has_quote_author_pattern feats then score + 3 else score in
  let score :=
    if (1 <=? line_count (layout feats))%Z && (line_count (layout feats) <=? 6)%Z
    then score + 1 else score in
  let score :=
    if Qle_bool 40 (avg_line_length (layout feats)) then score + 1 else score in
  let score :=
    if (num_units feats =? 0)%Z && (num_workout_terms feats =? 0)%Z
    then score + 1 else score in
  score.

Definition classify (feats : Features) (threshold : Q)
  : option ClassificationResult :=
  let scores : Py.dict Q :=
    [("recipe"%string, score_recipe feats);
     ("workout"%string, score_workout feats);
     ("quote"%string, score_quote feats)] in
  best_type <- Py.max (Py.dict_get scores) (Py.dict_keys scores) ;;
  best_score <- Py.dict_get scores best_type ;;
  let item_type :=
    if Py.Qlt_bool best_score threshold then "none"%string else best_type in
  Some {| item_type := item_type; scores := scores; threshold := threshold |}.

End WithUnicode.

(** The default of [classify]'s second argument. *)
Definition default_threshold : Q := 5.

End Heuristics.

(** ** [src/ocr.py]: [run_ocr]

    The file system and the OCR engine are inputs of the model: what the
    look-up of the cache file came to, and what
    [pytesseract.image_to_string] returned. *)

Module RunOcr.
Import PyStr Ocr.

(** The line boundaries of [str.splitlines]. *)
Definition islinebreak (c : N) : bool :=
  in_range 0x0A 0x0D c || in_range 0x1C 0x1E c || (c =? 0x85)%N
  || (c =? 0x2028)%N || (c =? 0x2029)%N.

(** [s.splitlines()].  [cur] is the line being read, reversed;
    [after_cr] says that the point before was a carriage return, whose
    line feed, if one follows, belongs to the same boundary.  A last line
    without a boundary is kept unless it is empty. *)
Fixpoint splitlines_from (after_cr : bool) (cur : str) (s : str) : list str :=
  match s with
  | [] => match cur with [] => [] | _ => [rev cur] end
  | c :: s' =>
      if after_cr && (c =? 0x0A)%N then splitlines_from false [] s'
      else if islinebreak c
           then rev cur :: splitlines_from (c =? 0x0D)%N [] s'
           else splitlines_from false (c :: cur) s'
  end.

Definition splitlines (s : str) : list str := splitlines_from false [] s.

Section WithUnicode.
Variable ucd : UnicodeData.

Fixpoint lstrip (s : str) : str :=
  match s with
  | [] => []
  | c :: s' => if isspace ucd c then lstrip s' else s
  end.

Definition rstrip (s : str) : str := rev (lstrip (rev s)).

(** [s.strip()] *)
Definition strip (s : str) : str := rstrip (lstrip s).

(** A string is true when it is not empty. *)
Definition truthy (s : str) : bool :=
  match s with [] => false | _ => true end.

(** What the look-up of the cache file comes to. *)
Inductive CacheRead : Type :=
| NoCacheFile                        (* cache_file.exists() is false *)
| Cached (r : OcrResult)             (* the file holds both keys *)
| Undecodable                        (* JSONDecodeError or KeyError: caught *)
| CacheFault.                        (* any other exception: not caught *)

(** The [try] block that runs the engine: the text is stripped, split
    into lines, and the lines are stripped and the blank ones dropped. *)
Definition ocr_result_of (raw : str) : OcrResult :=
  let full_text := strip raw in
  let lines :=
    map strip (filter (fun line => truthy (strip line)) (splitlines full_text)) in
  {| full_text := full_text; lines := lines |}.

(** [run_ocr].  [tesseract] is the text the engine returns, or [None]
    when opening the image or the engine raises.  The result is [None]
    when [run_ocr] itself raises. *)
Definition run_ocr (cache : CacheRead) (tesseract : option str)
  : option OcrResult :=
  match cache with
  | Cached r => Some r
  | CacheFault => None
  | NoCacheFile | Undecodable =>
      match tesseract with
      | Some raw => Some (ocr_result_of raw)
      | None => Some {| full_text := []; lines := [] |}
      end
  end.

(** *** The cache directory

    [run_ocr] keeps one JSON file per image, named after the stem of the
    image path (its last component without the suffix) and nothing else.
    The directory is the list of the files by stem, the latest first, each
    with the bytes it holds.  What [json.dump] writes for a result and
    what reading a file with given bytes comes to belong to the [json]
    library and the file system; they are read from a [JsonCodec], of
    which nothing is assumed. *)

Definition CacheDir := list (str * list N).

(** What [open], [json.load] and the two key look-ups of [run_ocr] come
    to on a file that exists. *)
Inductive FileRead : Type :=
| Decoded (r : OcrResult)     (* both keys found *)
| DecodeError                 (* JSONDecodeError or KeyError: caught *)
| ReadFault.                  (* any other exception, such as
                                 UnicodeDecodeError: not caught *)

Record JsonCodec := {
  (* the bytes of json.dump(asdict(result), f, indent=2,
     ensure_ascii=False) through the UTF-8 file *)
  json_dump : OcrResult -> list N;
  (* reading a file that holds these bytes *)
  json_read : list N -> FileRead
}.

Variable codec : JsonCodec.

Definition str_eqb (a b : str) : bool :=
  if list_eq_dec N.eq_dec a b then true else false.

Fixpoint cache_file (dir : CacheDir) (stem : str) : option (list N) :=
  match dir with
  | [] => None
  | (k, bytes) :: dir' =>
      if str_eqb k stem then Some bytes else cache_file dir' stem
  end.

Definition cache_read (dir : CacheDir) (stem : str) : CacheRead :=
  match cache_file dir stem with
  | None => NoCacheFile
  | Some bytes =>
      match json_read codec bytes with
      | Decoded r => Cached r
      | DecodeError => Undecodable
      | ReadFault => CacheFault
      end
  end.

(** How the [try] block that writes the cache file ends. *)
Inductive WriteOutcome : Type :=
| Written                      (* json.dump returned *)
| NotOpened                    (* open raised: the directory is as before *)
| CutShort (held : list N).    (* json.dump raised part-way: the file
                                  holds [held], whatever that reads as *)

Definition cache_write (dir : CacheDir) (stem : str) (r : OcrResult)
    (w : WriteOutcome) : CacheDir :=
  match w with
  | Written => (stem, json_dump codec r) :: dir
  | NotOpened => dir
  | CutShort held => (stem, held) :: dir
  end.

(** [run_ocr] with the cache directory threaded through: the value
    returned and the directory left behind.  Only a run of the engine that
    did not raise reaches the write. *)
Definition run_ocr_io (dir : CacheDir) (stem : str) (tesseract : option str)
    (w : WriteOutcome) : option OcrResult * CacheDir :=
  let result := run_ocr (cache_read dir stem) tesseract in
  let dir' :=
    match cache_read dir stem, tesseract with
    | NoCacheFile, Some raw | Undecodable, Some raw =>
        cache_write dir stem (ocr_result_of raw) w
    | _, _ => dir
    end in
  (result, dir').

End WithUnicode.

End RunOcr.

(** ** [src/eval.py]: the loop of [evaluate_dataset]

    The loop over the rows of the labels file, which builds the two label
    lists the metrics are computed from.  Reading the file and computing
    the metrics are left to pandas and scikit-learn and are not
    modelled. *)

Module Eval.
Import PyStr Ocr Features Heuristics RunOcr.

(** A row of the labels file, both cells passed through [str]. *)
Record Row := {
  image_path : str;
  true_label : str
}.

(** What the world answers while a row is processed. *)
Record Observed := {
  image_exists : bool;              (* image_path.exists(), once resolved *)
  image_stem : str;                 (* image_path.stem *)
  engine_text : option str;         (* the engine's text, or it raised *)
  write_outcome : WriteOutcome
}.

Definition label_order : list str :=
  [lit "recipe"; lit "workout"; lit "quote"; lit "none"].

Section WithUnicode.
Variable ucd : UnicodeData.
Variable codec : JsonCodec.

(** The body of the [try] block: OCR, features, classification. *)
Definition predict (dir : CacheDir) (obs : Observed) (threshold : Q)
  : option ClassificationResult * CacheDir :=
  let (ocr_result, dir') :=
    run_ocr_io ucd codec dir (image_stem obs) (engine_text obs)
      (write_outcome obs) in
  (r <- ocr_result ;; classify ucd (compute_features ucd r) threshold, dir').

Fixpoint evaluate_loop (threshold : Q) (rows : list (Row * Observed))
    (dir : CacheDir) (true_labels predicted_labels : list str)
  : list str * list str * CacheDir :=
  match rows with
  | [] => (true_labels, predicted_labels, dir)
  | (row, obs) :: rest =>
      let true_label_str := strip ucd (lower ucd (true_label row)) in
      if negb (existsb (str_eqb true_label_str) label_order)
      then evaluate_loop threshold rest dir true_labels predicted_labels
      else if negb (image_exists obs)
      then evaluate_loop threshold rest dir true_labels predicted_labels
      else
        match predict dir obs threshold with
        | (Some result, dir') =>
            evaluate_loop threshold rest dir'
              (true_labels ++ [true_label_str])
              (predicted_labels ++ [lit (item_type result)])
        | (None, dir') =>
            evaluate_loop threshold rest dir' true_labels predicted_labels
        end
  end.

End WithUnicode.

End Eval.

(** ** Inputs of the examples *)

Module Examples.
Import PyStr Ocr Features Heuristics.

Definition NL : N := 10%N.

(** The workout screenshot of [tests/test_features.py]. *)
Definition workout_ocr : OcrResult :=
  {| full_text :=
       lit "3 sets of 10 reps" ++ NL :: lit "Rest 60 seconds"
         ++ NL :: lit "Legs workout";
     lines :=
       [lit "3 sets of 10 reps"; lit "Rest 60 seconds"; lit "Legs workout"] |}.

(** What the OCR module returns when it fails. *)
Definition empty_ocr : OcrResult := {| full_text := []; lines := [] |}.

(** [feats_workout] of [test_score_workout] in [tests/test_heuristics.py]:
    [create_test_features] with the workout lines, [num_workout_terms=3],
    [num_body_parts=1] and [bullet_lines=2]; the helper fills
    [line_count] with [len(lines)] and [avg_line_length] with the mean. *)
Definition test_feats_workout : Features :=
  {| ocr := workout_ocr;
     layout := {| line_count := 3; bullet_lines := 2; numbered_lines := 0;
                  avg_line_length := 44 # 3 |};
     num_units := 0;
     num_cooking_verbs := 0;
     num_workout_terms := 3;
     num_body_parts := 1;
     has_ingredients_section := false;
     has_steps_section := false;
     has_quote_author_pattern := false;
     quote_mark_count := 0 |}.

(** A feature record on which every scorer returns 0.0. *)
Definition all_zero_feats : Features :=
  {| ocr := empty_ocr;
     layout := {| line_count := 0; bullet_lines := 0; numbered_lines := 0;
                  avg_line_length := 0 |};
     num_units := 1;
     num_cooking_verbs := 0;
     num_workout_terms := 0;
     num_body_parts := 0;
     has_ingredients_section := false;
     has_steps_section := false;
     has_quote_author_pattern := false;
     quote_mark_count := 0 |}.

(** A record with the ingredients flag set, and the same record without. *)
Definition with_ingredients (b : bool) : Features :=
  {| ocr := workout_ocr;
     layout := {| line_count := 3; bullet_lines := 0; numbered_lines := 0;
                  avg_line_length := 44 # 3 |};
     num_units := 2;
     num_cooking_verbs := 0;
     num_workout_terms := 3;
     num_body_parts := 1;
     has_ingredients_section := b;
     has_steps_section := false;
     has_quote_author_pattern := false;
     quote_mark_count := 0 |}.

(** The sample of [test_compute_layout_features]: two bullet lines, two
    numbered lines and a plain one. *)
Definition layout_sample_ocr : OcrResult :=
  let ls := [BULLET :: lit " Item 1"; BULLET :: lit " Item 2";
             lit "1. First step"; lit "2. Second step";
             lit "Regular text line"] in
  {| full_text :=
       BULLET :: lit " Item 1" ++ NL :: BULLET :: lit " Item 2"
         ++ NL :: lit "1. First step" ++ NL :: lit "2. Second step"
         ++ NL :: lit "Regular text line";
     lines := ls |}.

(** The recipe screenshot of [tests/test_features.py]. *)
Definition recipe_ocr : OcrResult :=
  let ls := [lit "Ingredients"; lit "2 cups flour"; lit "1 tbsp sugar";
             lit "Mix and bake at 350" ++ DEGREE :: lit "F"] in
  {| full_text :=
       lit "Ingredients" ++ NL :: lit "2 cups flour" ++ NL :: lit "1 tbsp sugar"
         ++ NL :: lit "Mix and bake at 350" ++ DEGREE :: lit "F";
     lines := ls |}.

(** The quote screenshot of [tests/test_features.py]. *)
Definition quote_line : str :=
  0x22%N :: lit "The only way to do great work is to love what you do."
    ++ [0x22%N].
Definition author_line : str := EM_DASH :: lit " Steve Jobs".
Definition quote_ocr : OcrResult :=
  {| full_text := quote_line ++ NL :: author_line;
     lines := [quote_line; author_line] |}.

(** What [classify] answers on [all_zero_feats] at threshold 0.0. *)
Definition all_zero_result : ClassificationResult :=
  {| item_type := "recipe";
     scores := [("recipe"%string, 0%Q); ("workout"%string, 0%Q);
                ("quote"%string, 0%Q)];
     threshold := 0%Q |}.

End Examples.

(** ** Relations the properties are stated with *)

Import PyStr Re Ocr Features Heuristics.
Open Scope Q_scope.

(** Two feature records that agree on every field but
    [has_ingredients_section]. *)
Definition same_but_ingredients (f1 f2 : Features) : Prop :=
  ocr f1 = ocr f2 /\ layout f1 = layout f2
  /\ num_units f1 = num_units f2
  /\ num_cooking_verbs f1 = num_cooking_verbs f2
  /\ num_workout_terms f1 = num_workout_terms f2
  /\ num_body_parts f1 = num_body_parts f2
  /\ has_steps_section f1 = has_steps_section f2
  /\ has_quote_author_pattern f1 = has_quote_author_pattern f2
  /\ quote_mark_count f1 = quote_mark_count f2.

(** The greatest of the three scores. *)
Definition max_score (ucd : UnicodeData) (f : Features) : Q :=
  Qmax (score_recipe ucd f) (Qmax (score_workout ucd f) (score_quote ucd f)).

(** The letters l and g, in either case. *)
Definition is_l_or_g (c : N) : bool :=
  one_of [0x6C; 0x4C; 0x67; 0x47]%N c.

(** Two feature records that agree on every field but
    [num_cooking_verbs]. *)
Definition same_but_cooking_verbs (f1 f2 : Features) : Prop :=
  ocr f1 = ocr f2 /\ layout f1 = layout f2
  /\ num_units f1 = num_units f2
  /\ num_workout_terms f1 = num_workout_terms f2
  /\ num_body_parts f1 = num_body_parts f2
  /\ has_ingredients_section f1 = has_ingredients_section f2
  /\ has_steps_section f1 = has_steps_section f2
  /\ has_quote_author_pattern f1 = has_quote_author_pattern f2
  /\ quote_mark_count f1 = quote_mark_count f2.

(** [f2] has the lines of [f1] and at least as much of everything
    [score_recipe] reads. *)
Definition recipe_evidence_le (f1 f2 : Features) : Prop :=
  lines (ocr f1) = lines (ocr f2)
  /\ (has_ingredients_section f1 = true -> has_ingredients_section f2 = true)
  /\ (num_units f1 <= num_units f2)%Z
  /\ (num_cooking_verbs f1 <= num_cooking_verbs f2)%Z
  /\ (bullet_lines (layout f1) <= bullet_lines (layout f2))%Z
  /\ (numbered_lines (layout f1) <= numbered_lines (layout f2))%Z.

(** [f2] has the lines of [f1], at least as much of everything
    [score_workout] rewards, and the ingredients flag only if [f1] has
    it. *)
Definition workout_evidence_le (f1 f2 : Features) : Prop :=
  lines (ocr f1) = lines (ocr f2)
  /\ (has_ingredients_section f2 = true -> has_ingredients_section f1 = true)
  /\ (num_workout_terms f1 <= num_workout_terms f2)%Z
  /\ (num_body_parts f1 <= num_body_parts f2)%Z
  /\ (bullet_lines (layout f1) <= bullet_lines (layout f2))%Z
  /\ (numbered_lines (layout f1) <= numbered_lines (layout f2))%Z.

(** The test of the [for] loop of [score_quote] on one line. *)
Definition quote_line_qualifies (ucd : UnicodeData) (line : str) : bool :=
  Py.any (fun marker => contains marker line) QUOTE_MARKERS
  && (4 <=? Z.of_nat (List.length (split ucd line)))%Z.

(** Feature records on which a scorer reaches the top of its range. *)
Definition feats_of (ls : list str) (bullets : Z) (units verbs terms parts : Z)
    (ingredients author : bool) (avg : Q) : Features :=
  {| ocr := {| full_text := []; lines := ls |};
     layout := {| line_count := Z.of_nat (List.length ls);
                  bullet_lines := bullets; numbered_lines := bullets;
                  avg_line_length := avg |};
     num_units := units;
     num_cooking_verbs := verbs;
     num_workout_terms := terms;
     num_body_parts := parts;
     has_ingredients_section := ingredients;
     has_steps_section := false;
     has_quote_author_pattern := author;
     quote_mark_count := 0 |}.

Definition top_recipe_feats : Features :=
  feats_of [lit "Serves 4"] 3 3 2 0 0 true false 0.
Definition top_workout_feats : Features :=
  feats_of [lit "5 sets 3x10"; lit "12 reps"] 2 0 0 2 1 false false 0.
Definition top_quote_feats : Features :=
  feats_of [lit "to be - or not"] 0 0 0 0 0 false true 40.
Definition bottom_workout_feats : Features :=
  feats_of [] 0 0 0 0 0 true false 0.

(** What the layout patterns need of the database above Latin-1: no
    code point is at once whitespace and a decimal digit, and the bullet
    is neither.  The Unicode database is so. *)
Definition consistent_classes (ucd : UnicodeData) : Prop :=
  (forall c, isspace ucd c = true -> isdecimal ucd c = false)
  /\ isspace ucd BULLET = false
  /\ isdecimal ucd BULLET = false.

(** The cache gave nothing, so [run_ocr] runs the engine. *)
Definition cache_missed (c : RunOcr.CacheRead) : Prop :=
  c = RunOcr.NoCacheFile \/ c = RunOcr.Undecodable.

(** Neither the first nor the last code point is whitespace. *)
Definition trimmed (ucd : UnicodeData) (s : str) : Prop :=
  (forall c s', s = c :: s' -> isspace ucd c = false)
  /\ (forall c s', s = s' ++ [c] -> isspace ucd c = false).

(** [l] occurs in [t]. *)
Definition factor_of (l t : str) : Prop := exists a b, t = a ++ l ++ b.

(** An engine output for the examples: two lines between blank ones. *)
Definition raw_sample : str :=
  lit "  3 sets " ++ [10; 10; 32]%N ++ lit "- Rest  " ++ [13; 10; 9; 10]%N.
Definition raw_sample_result : OcrResult :=
  {| full_text := lit "3 sets " ++ [10; 10; 32]%N ++ lit "- Rest";
     lines := [lit "3 sets"; lit "- Rest"] |}.

(** Two feature records that agree on everything a scorer reads: they
    may differ in the full text, in [has_steps_section] and in
    [quote_mark_count]. *)
Definition same_scored_fields (f1 f2 : Features) : Prop :=
  lines (ocr f1) = lines (ocr f2) /\ layout f1 = layout f2
  /\ num_units f1 = num_units f2
  /\ num_cooking_verbs f1 = num_cooking_verbs f2
  /\ num_workout_terms f1 = num_workout_terms f2
  /\ num_body_parts f1 = num_body_parts f2
  /\ has_ingredients_section f1 = has_ingredients_section f2
  /\ has_quote_author_pattern f1 = has_quote_author_pattern f2.

(** Two rows of a labels file with what the world answers for them: the
    first label needs trimming and lower-casing, the second is not a
    label. *)
Definition sample_rows : list (Eval.Row * Eval.Observed) :=
  [({| Eval.image_path := lit "data/raw/a.png";
       Eval.true_label := lit " Recipe " |},
    {| Eval.image_exists := true; Eval.image_stem := lit "a";
       Eval.engine_text := Some raw_sample;
       Eval.write_outcome := RunOcr.Written |});
   ({| Eval.image_path := lit "data/raw/b.png";
       Eval.true_label := lit "meme" |},
    {| Eval.image_exists := true; Eval.image_stem := lit "b";
       Eval.engine_text := Some raw_sample;
       Eval.write_outcome := RunOcr.Written |})].

(** A codec for the examples: it writes empty files, and an empty file
    does not decode. *)
Definition blank_codec : RunOcr.JsonCodec :=
  {| RunOcr.json_dump := fun _ => [];
     RunOcr.json_read := fun _ => RunOcr.DecodeError |}.

(** [Examples.with_ingredients false] with another full text, the steps
    flag set and another quote-mark count. *)
Definition unscored_variant : Features :=
  {| ocr := {| full_text := lit "Method: steps";
               lines := lines Examples.workout_ocr |};
     layout := layout (Examples.with_ingredients false);
     num_units := 2;
     num_cooking_verbs := 0;
     num_workout_terms := 3;
     num_body_parts := 1;
     has_ingredients_section := false;
     has_steps_section := true;
     has_quote_author_pattern := false;
     quote_mark_count := 3 |}.

(** * Properties *)


(** ** Built-ins *)

Lemma Qlt_bool_iff (x y : Q) : Py.Qlt_bool x y = true <-> x < y.
Proof.
  unfold Py.Qlt_bool. rewrite negb_true_iff.
  split; intro H.
  - apply Qnot_le_lt. intro Hle. apply Qle_bool_iff in Hle. congruence.
  - destruct (Qle_bool y x) eqn:E; [|reflexivity].
    apply Qle_bool_iff in E. lra.
Qed.

Lemma Qlt_bool_false_iff (x y : Q) : Py.Qlt_bool x y = false <-> y <= x.
Proof.
  unfold Py.Qlt_bool. rewrite negb_false_iff. apply Qle_bool_iff.
Qed.

Lemma sum_from (xs : list Z) (a : Z) :
  fold_left Z.add xs a = (a + Py.sum xs)%Z.
Proof.
  unfold Py.sum. revert a.
  induction xs as [|x xs IH]; intro a; simpl.
  - lia.
  - rewrite (IH (a + x)%Z), (IH x). lia.
Qed.

Lemma sum_cons (x : Z) (xs : list Z) : Py.sum (x :: xs) = (x + Py.sum xs)%Z.
Proof. unfold Py.sum at 1. simpl. apply sum_from. Qed.

Lemma count_if_length (A : Type) (p : A -> bool) (xs : list A) :
  Py.count_if p xs = Z.of_nat (List.length (filter p xs)).
Proof.
  unfold Py.count_if.
  induction (filter p xs) as [|y ys IH].
  - reflexivity.
  - cbn [map List.length]. rewrite sum_cons, IH. lia.
Qed.

Lemma count_if_bounds (A : Type) (p : A -> bool) (xs : list A) :
  (0 <= Py.count_if p xs <= Z.of_nat (List.length xs))%Z.
Proof.
  rewrite count_if_length.
  pose proof (filter_length_le p xs). lia.
Qed.

Lemma count_if_witness (A : Type) (p : A -> bool) (xs : list A) (x : A) :
  In x xs -> p x = true -> (1 <= Py.count_if p xs)%Z.
Proof.
  intros Hin Hp. rewrite count_if_length.
  assert (Hf : In x (filter p xs)) by (apply filter_In; auto).
  destruct (filter p xs); [contradiction | simpl; lia].
Qed.

(** ** Strings *)

Lemma contains_char (c : N) (s : str) : In c s -> contains [c] s = true.
Proof.
  induction s as [|a s IH]; intro Hin; [contradiction|].
  cbn [contains startswith].
  destruct Hin as [-> | Hin].
  - rewrite N.eqb_refl. reflexivity.
  - rewrite (IH Hin). apply orb_true_r.
Qed.

Section StringFacts.
Variable ucd : UnicodeData.

Lemma lower_from_latin1 (s : str) (c : N) (rest : str) (i : nat) :
  In c rest -> (c < 256)%N -> In (latin1_lower c) (lower_from ucd s i rest).
Proof.
  intros Hin Hc. revert i.
  induction rest as [|a rest IH]; intro i; [contradiction|].
  cbn [lower_from]. apply in_or_app.
  destruct Hin as [-> | Hin].
  - left. apply N.ltb_lt in Hc. rewrite Hc. left. reflexivity.
  - right. apply IH. exact Hin.
Qed.

Lemma lower_latin1 (s : str) (c : N) :
  In c s -> (c < 256)%N -> In (latin1_lower c) (lower ucd s).
Proof. apply lower_from_latin1. Qed.

Lemma lower_has_l_or_g (s : str) :
  existsb is_l_or_g s = true ->
  contains (lit "l") (lower ucd s) = true
  \/ contains (lit "g") (lower ucd s) = true.
Proof.
  intro H. apply existsb_exists in H. destruct H as [c [Hin Hc]].
  unfold is_l_or_g, one_of in Hc. cbn [existsb] in Hc.
  rewrite !orb_true_iff in Hc.
  destruct Hc as [Hc | [Hc | [Hc | [Hc | Hc]]]]; try discriminate;
    apply N.eqb_eq in Hc; subst c.
  - left. apply contains_char.
    apply (lower_latin1 s (c := 0x6C%N)); [exact Hin | reflexivity].
  - left. apply contains_char.
    apply (lower_latin1 s (c := 0x4C%N)); [exact Hin | reflexivity].
  - right. apply contains_char.
    apply (lower_latin1 s (c := 0x67%N)); [exact Hin | reflexivity].
  - right. apply contains_char.
    apply (lower_latin1 s (c := 0x47%N)); [exact Hin | reflexivity].
Qed.

End StringFacts.

(** ** The matcher decides the language of the pattern *)

Lemma nullable_matches (r : regex) : nullable r = true <-> matches r [].
Proof.
  split.
  - induction r; cbn [nullable]; intro H; try discriminate.
    + constructor.
    + apply andb_true_iff in H. destruct H as [H1 H2].
      change (@nil N) with (@nil N ++ []). constructor; auto.
    + apply orb_true_iff in H. destruct H; [apply MAltL | apply MAltR]; auto.
    + constructor.
  - intro H. remember (@nil N) as s eqn:Es.
    induction H; cbn [nullable]; try reflexivity; try discriminate.
    + apply app_eq_nil in Es. destruct Es as [-> ->].
      rewrite IHmatches1, IHmatches2; reflexivity.
    + rewrite IHmatches by assumption. reflexivity.
    + rewrite IHmatches by assumption. apply orb_true_r.
Qed.

Lemma deriv_sound (c : N) (r : regex) :
  forall s, matches (deriv c r) s -> matches r (c :: s).
Proof.
  induction r as [| |p|r1 IH1 r2 IH2|r1 IH1 r2 IH2|r1 IH1];
    cbn [deriv]; intros s H.
  - inversion H.
  - inversion H.
  - destruct (p c) eqn:E; inversion H; subst. constructor. exact E.
  - destruct (nullable r1) eqn:E.
    + inversion H as [| | |? ? ? H'|? ? ? H'| |]; subst.
      * inversion H'; subst.
        change (matches (Cat r1 r2) ((c :: s1) ++ s2)). constructor; auto.
      * change (matches (Cat r1 r2) ([] ++ c :: s)).
        constructor; [apply nullable_matches; exact E | auto].
    + inversion H; subst.
      change (matches (Cat r1 r2) ((c :: s1) ++ s2)). constructor; auto.
  - inversion H; subst; [apply MAltL | apply MAltR]; auto.
  - inversion H; subst.
    change (matches (Star r1) ((c :: s1) ++ s2)). constructor; auto.
Qed.

Lemma deriv_complete (r : regex) (cs : str) :
  matches r cs -> forall c s, cs = c :: s -> matches (deriv c r) s.
Proof.
  induction 1 as [|p a Hp|r1 r2 s1 s2 H1 IH1 H2 IH2|r1 r2 s0 H1 IH1
                 |r1 r2 s0 H2 IH2| |r1 s1 s2 H1 IH1 H2 IH2];
    intros c s E; cbn [deriv]; try discriminate.
  - injection E as -> <-. rewrite Hp. constructor.
  - destruct s1 as [|a s1]; cbn [app] in E.
    + apply nullable_matches in H1. rewrite H1. apply MAltR. auto.
    + injection E as -> <-.
      destruct (nullable r1); [apply MAltL|]; constructor; auto.
  - apply MAltL. auto.
  - apply MAltR. auto.
  - destruct s1 as [|a s1]; cbn [app] in E.
    + apply (IH2 c s E).
    + injection E as -> <-. constructor; auto.
Qed.

Lemma deriv_matches (c : N) (r : regex) (s : str) :
  matches (deriv c r) s <-> matches r (c :: s).
Proof.
  split; [apply deriv_sound | intro H; apply (deriv_complete H); reflexivity].
Qed.

(** [pattern.match(s)] succeeds exactly when a prefix of [s] is in the
    language of the pattern. *)
Lemma re_match_spec (s : str) :
  forall r, re_match r s = true <-> exists p q, s = p ++ q /\ matches r p.
Proof.
  induction s as [|c s IH]; intro r; cbn [re_match].
  - rewrite orb_false_r, nullable_matches. split.
    + intro H. exists [], []. auto.
    + intros [p [q [E H]]]. symmetry in E. apply app_eq_nil in E.
      destruct E as [-> _]. exact H.
  - rewrite orb_true_iff, nullable_matches, IH. split.
    + intros [H | [p [q [-> H]]]].
      * exists [], (c :: s). auto.
      * exists (c :: p), q. split; [reflexivity | apply deriv_matches; exact H].
    + intros [[|a p] [q [E H]]].
      * left. exact H.
      * cbn [app] in E. injection E as <- ->.
        right. exists p, q. split; [reflexivity | apply deriv_matches; exact H].
Qed.

(** [pattern.search(s)] succeeds exactly when a factor of [s] is in the
    language of the pattern. *)
Lemma re_search_spec (r : regex) (s : str) :
  re_search r s = true <->
  exists a p q, s = a ++ p ++ q /\ matches r p.
Proof.
  induction s as [|c s IH]; cbn [re_search].
  - rewrite orb_false_r, re_match_spec. split.
    + intros [p [q [E H]]]. exists [], p, q. auto.
    + intros [a [p [q [E H]]]]. symmetry in E.
      apply app_eq_nil in E. destruct E as [-> E]. exists p, q. auto.
  - rewrite orb_true_iff, re_match_spec, IH. split.
    + intros [[p [q [E H]]] | [a [p [q [E H]]]]].
      * exists [], p, q. auto.
      * exists (c :: a), p, q. rewrite E. auto.
    + intros [[|x a] [p [q [E H]]]].
      * left. exists p, q. auto.
      * cbn [app] in E. injection E as <- ->. right. exists a, p, q. auto.
Qed.

(** ** Scorers and classifier *)

Ltac split_ifs :=
  repeat match goal with
         | |- context [if ?c then _ else _] => destruct c
         end.

Section ScoreFacts.
Variable ucd : UnicodeData.

Lemma quote_line_loop_cases (ls : list str) (s : Q) :
  quote_line_loop ucd ls s = s \/ quote_line_loop ucd ls s = s + 2.
Proof.
  induction ls as [|l ls IH]; cbn [quote_line_loop]; [left; reflexivity|].
  destruct (_ && _); [right; reflexivity | exact IH].
Qed.

Lemma score_recipe_nonneg (f : Features) : 0 <= score_recipe ucd f.
Proof. unfold score_recipe. split_ifs; lra. Qed.

Lemma score_quote_nonneg (f : Features) : 0 <= score_quote ucd f.
Proof.
  unfold score_quote.
  destruct (quote_line_loop_cases (lines (ocr f)) 0) as [-> | ->];
    split_ifs; lra.
Qed.

(** What [max] over the three keys and the look-up of the winner come to.
    The running maximum starts at recipe and moves only to a strictly
    greater score. *)
Lemma classify_cases (f : Features) (t : Q) :
  exists bt bs,
    classify ucd f t =
      Some {| item_type := if Py.Qlt_bool bs t then "none"%string else bt;
              scores := [("recipe"%string, score_recipe ucd f);
                         ("workout"%string, score_workout ucd f);
                         ("quote"%string, score_quote ucd f)];
              threshold := t |}
    /\ ((bt = "recipe"%string /\ bs = score_recipe ucd f
         /\ score_workout ucd f <= bs /\ score_quote ucd f <= bs)
        \/ (bt = "workout"%string /\ bs = score_workout ucd f
            /\ score_recipe ucd f < bs /\ score_quote ucd f <= bs)
        \/ (bt = "quote"%string /\ bs = score_quote ucd f
            /\ score_recipe ucd f < bs /\ score_workout ucd f < bs)).
Proof.
  unfold classify.
  generalize (score_recipe ucd f) (score_workout ucd f) (score_quote ucd f).
  intros r w q.
  cbn [Py.max Py.dict_keys Py.dict_get Py.bind Py.max_loop map fst String.eqb
       Ascii.eqb Bool.eqb].
  destruct (Py.Qlt_bool r w) eqn:Erw.
  - destruct (Py.Qlt_bool w q) eqn:Ewq;
      cbn [Py.dict_get Py.bind String.eqb Ascii.eqb Bool.eqb].
    + apply Qlt_bool_iff in Erw, Ewq.
      exists "quote"%string, q. split; [reflexivity|].
      right; right. repeat split; lra.
    + apply Qlt_bool_iff in Erw. apply Qlt_bool_false_iff in Ewq.
      exists "workout"%string, w. split; [reflexivity|].
      right; left. repeat split; lra.
  - destruct (Py.Qlt_bool r q) eqn:Erq;
      cbn [Py.dict_get Py.bind String.eqb Ascii.eqb Bool.eqb].
    + apply Qlt_bool_false_iff in Erw. apply Qlt_bool_iff in Erq.
      exists "quote"%string, q. split; [reflexivity|].
      right; right. repeat split; lra.
    + apply Qlt_bool_false_iff in Erw, Erq.
      exists "recipe"%string, r. split; [reflexivity|].
      left. repeat split; lra.
Qed.

Lemma max_score_spec (f : Features) :
  score_recipe ucd f <= max_score ucd f
  /\ score_workout ucd f <= max_score ucd f
  /\ score_quote ucd f <= max_score ucd f
  /\ (max_score ucd f == score_recipe ucd f
      \/ max_score ucd f == score_workout ucd f
      \/ max_score ucd f == score_quote ucd f).
Proof.
  unfold max_score.
  generalize (score_recipe ucd f) (score_workout ucd f) (score_quote ucd f).
  intros r w q.
  pose proof (Q.le_max_l r (Qmax w q)) as H1.
  pose proof (Q.le_max_r r (Qmax w q)) as H2.
  pose proof (Q.le_max_l w q) as H3.
  pose proof (Q.le_max_r w q) as H4.
  repeat split; try lra.
  destruct (Q.max_spec r (Qmax w q)) as [[_ E] | [_ E]];
    destruct (Q.max_spec w q) as [[_ E'] | [_ E']]; lra.
Qed.

End ScoreFacts.

(** ** The worked examples *)

(** C1.  On the workout screenshot (lines "3 sets of 10 reps",
    "Rest 60 seconds", "Legs workout") the extractor finds three workout
    terms and one body part, as the example expects, but only one line
    holds "sets" or "reps", so [score_workout] is 3.0, not 5.0 or more,
    and [classify] at threshold 5.0 answers "none", not "workout". *)
Theorem workout_example_evaluation (ucd : UnicodeData) :
  let f := compute_features ucd Examples.workout_ocr in
  num_workout_terms f = 3%Z
  /\ num_body_parts f = 1%Z
  /\ score_workout ucd f = 3
  /\ classify ucd f 5 =
       Some {| item_type := "none";
               scores := [("recipe"%string, 0); ("workout"%string, 3);
                          ("quote"%string, 1)];
               threshold := 5 |}.
Proof. repeat split; vm_compute; reflexivity. Qed.

(** The feature record that [test_score_workout] builds by hand for the
    same lines (with two bullet lines on top) scores 4.0, where the test
    asserts 5.0 or more. *)
Lemma test_score_workout_evaluation (ucd : UnicodeData) :
  score_workout ucd Examples.test_feats_workout = 4.
Proof. vm_compute. reflexivity. Qed.

(** C5.  The empty OCR result goes through feature extraction and
    [classify] at the default threshold without an exception, and the
    answer is "none". *)
Theorem empty_ocr_is_none (ucd : UnicodeData) :
  classify ucd (compute_features ucd Examples.empty_ocr) default_threshold =
    Some {| item_type := "none";
            scores := [("recipe"%string, 0); ("workout"%string, 0);
                       ("quote"%string, 1)];
            threshold := 5 |}.
Proof. vm_compute. reflexivity. Qed.

(** The sample of [test_compute_layout_features] has five lines, two of
    them bullets and two numbered.  The bullet lies above Latin-1, so the
    sample is run in a database that gives it no property. *)
Lemma layout_sample_evaluation :
  let lf := compute_layout_features latin1_only Examples.layout_sample_ocr in
  line_count lf = 5%Z /\ bullet_lines lf = 2%Z /\ numbered_lines lf = 2%Z
  /\ avg_line_length lf = 60 # 5.
Proof. repeat split; vm_compute; reflexivity. Qed.

(** The recipe screenshot: an ingredients section, six units, two cooking
    verbs; recipe scores 7.0 and wins at threshold 5.0. *)
Lemma recipe_example_evaluation (ucd : UnicodeData) :
  let f := compute_features ucd Examples.recipe_ocr in
  has_ingredients_section f = true
  /\ num_units f = 6%Z
  /\ num_cooking_verbs f = 2%Z
  /\ classify ucd f 5 =
       Some {| item_type := "recipe";
               scores := [("recipe"%string, 7); ("workout"%string, -2);
                          ("quote"%string, 1)];
               threshold := 5 |}.
Proof. repeat split; vm_compute; reflexivity. Qed.

(** The quote screenshot: the attribution line is found, and the letters
    l and g of "only", "love" and "great" count as two units; quote
    scores 6.0 and wins at threshold 5.0. *)
Lemma quote_example_evaluation :
  let f := compute_features latin1_only Examples.quote_ocr in
  has_quote_author_pattern f = true
  /\ line_count (layout f) = 2%Z
  /\ num_units f = 2%Z
  /\ classify latin1_only f 5 =
       Some {| item_type := "quote";
               scores := [("recipe"%string, 0); ("workout"%string, 0);
                          ("quote"%string, 6)];
               threshold := 5 |}.
Proof. repeat split; vm_compute; reflexivity. Qed.

(** ** The classifier *)

(** C2.  [classify] always returns; its [scores] are the three computed
    scores under their keys; the answer is "none" exactly when the
    greatest score is strictly below the threshold, and otherwise it is a
    category whose score is that greatest score. *)
Theorem classify_threshold_decision (ucd : UnicodeData) (f : Features) (t : Q) :
  exists res,
    classify ucd f t = Some res
    /\ scores res = [("recipe"%string, score_recipe ucd f);
                     ("workout"%string, score_workout ucd f);
                     ("quote"%string, score_quote ucd f)]
    /\ threshold res = t
    /\ (item_type res = "none"%string <-> max_score ucd f < t)
    /\ (~ max_score ucd f < t ->
        (item_type res = "recipe"%string
         /\ score_recipe ucd f == max_score ucd f)
        \/ (item_type res = "workout"%string
            /\ score_workout ucd f == max_score ucd f)
        \/ (item_type res = "quote"%string
            /\ score_quote ucd f == max_score ucd f)).
Proof.
  destruct (classify_cases ucd f t) as [bt [bs [E Hsel]]].
  destruct (max_score_spec ucd f) as [Hr [Hw [Hq Hm]]].
  eexists. split; [exact E|]. cbn [scores threshold item_type].
  split; [reflexivity|]. split; [reflexivity|].
  assert (Hbs : bs == max_score ucd f).
  { destruct Hsel as [[_ [-> [? ?]]] | [[_ [-> [? ?]]] | [_ [-> [? ?]]]]];
      destruct Hm as [Hm | [Hm | Hm]]; lra. }
  destruct (Py.Qlt_bool bs t) eqn:Elt.
  - apply Qlt_bool_iff in Elt. split.
    + split; [intros _; lra | reflexivity].
    + intro Hn. exfalso. apply Hn. lra.
  - apply Qlt_bool_false_iff in Elt. split.
    + split.
      * intro Hnone.
        destruct Hsel as [[-> _] | [[-> _] | [-> _]]]; discriminate.
      * intro Hlt. lra.
    + intros _.
      destruct Hsel as [[-> [-> _]] | [[-> [-> _]] | [-> [-> _]]]];
        [left | right; left | right; right]; (split; [reflexivity | exact Hbs]).
Qed.

(** C3.  When the greatest score reaches the threshold, the answer is the
    first category, in the order recipe, workout, quote, whose score is
    the greatest one; so among tied categories the earlier one wins. *)
Theorem classify_tie_priority (ucd : UnicodeData) (f : Features) (t : Q)
    (res : ClassificationResult) :
  classify ucd f t = Some res ->
  t <= max_score ucd f ->
  (score_recipe ucd f == max_score ucd f -> item_type res = "recipe"%string)
  /\ (~ score_recipe ucd f == max_score ucd f ->
      score_workout ucd f == max_score ucd f ->
      item_type res = "workout"%string)
  /\ (~ score_recipe ucd f == max_score ucd f ->
      ~ score_workout ucd f == max_score ucd f ->
      item_type res = "quote"%string).
Proof.
  intros E Ht.
  destruct (classify_cases ucd f t) as [bt [bs [E' Hsel]]].
  destruct (max_score_spec ucd f) as [Hr [Hw [Hq Hm]]].
  rewrite E in E'. injection E' as ->. cbn [item_type].
  assert (Hbs : bs == max_score ucd f).
  { destruct Hsel as [[_ [-> [? ?]]] | [[_ [-> [? ?]]] | [_ [-> [? ?]]]]];
      destruct Hm as [Hm | [Hm | Hm]]; lra. }
  assert (Elt : Py.Qlt_bool bs t = false) by (apply Qlt_bool_false_iff; lra).
  rewrite Elt.
  destruct Hsel as [[-> [-> [? ?]]] | [[-> [-> [? ?]]] | [-> [-> [? ?]]]]];
    repeat split; intros; try reflexivity; exfalso; lra.
Qed.

(** C4.  The recipe and quote scores are never negative, so the greatest
    score is never below 0.0 and [classify] at threshold 0.0 never
    answers "none". *)
Theorem classify_zero_threshold_never_none (ucd : UnicodeData) (f : Features) :
  0 <= score_recipe ucd f
  /\ 0 <= score_quote ucd f
  /\ 0 <= max_score ucd f
  /\ exists res,
       classify ucd f 0 = Some res /\ item_type res <> "none"%string.
Proof.
  pose proof (score_recipe_nonneg ucd f) as Hr.
  pose proof (score_quote_nonneg ucd f) as Hq.
  destruct (max_score_spec ucd f) as [Hr' [_ [_ _]]].
  assert (Hm : 0 <= max_score ucd f) by lra.
  repeat split; try assumption.
  destruct (classify_cases ucd f 0) as [bt [bs [E Hsel]]].
  eexists. split; [exact E|]. cbn [item_type].
  assert (Elt : Py.Qlt_bool bs 0 = false).
  { apply Qlt_bool_false_iff.
    destruct Hsel as [[_ [-> _]] | [[_ [-> [? _]]] | [_ [-> [? _]]]]]; lra. }
  rewrite Elt.
  destruct Hsel as [[-> _] | [[-> _] | [-> _]]]; discriminate.
Qed.

(** C6.  Of two feature records that differ in nothing but
    [has_ingredients_section], the one with the flag set scores exactly
    2.0 less on [score_workout]. *)
Theorem score_workout_ingredients_penalty (ucd : UnicodeData)
    (f1 f2 : Features) :
  same_but_ingredients f1 f2 ->
  has_ingredients_section f1 = true ->
  has_ingredients_section f2 = false ->
  score_workout ucd f1 == score_workout ucd f2 - 2.
Proof.
  intros [Ho [Hl [_ [_ [Hw [Hb _]]]]]] H1 H2.
  unfold score_workout. rewrite Ho, Hl, Hw, Hb, H1, H2. reflexivity.
Qed.

(** ** The layout analyser *)

Lemma sum_len_lower_bound (ls : list str) :
  Forall (fun l => l <> []) ls ->
  (Z.of_nat (List.length ls) <= Py.sum (map len ls))%Z.
Proof.
  induction 1 as [|l ls Hl _ IH]; [reflexivity|].
  cbn [map List.length]. rewrite sum_cons.
  assert (1 <= len l)%Z by (destruct l; [congruence | unfold len; simpl; lia]).
  lia.
Qed.

Lemma Qdiv_Z_zero_iff (a b : Z) :
  (0 < b)%Z -> (inject_Z a / inject_Z b == 0 <-> a = 0%Z).
Proof.
  intro Hb.
  assert (Hnz : ~ inject_Z b == 0).
  { unfold Qeq, inject_Z. simpl. lia. }
  split.
  - intro H.
    assert (E : inject_Z a == 0).
    { rewrite <- (Qmult_div_r (inject_Z a) (inject_Z b) Hnz), H. ring. }
    unfold Qeq, inject_Z in E. simpl in E. lia.
  - intros ->. unfold Qdiv. ring.
Qed.

Lemma layout_of_nonempty_lines (ucd : UnicodeData) (o : OcrResult) :
  Forall (fun l => l <> []) (lines o) ->
  let lf := compute_layout_features ucd o in
  (avg_line_length lf == 0 <-> lines o = [])
  /\ (lines o <> [] ->
      avg_line_length lf ==
        inject_Z (Py.sum (map len (lines o)))
          / inject_Z (Z.of_nat (List.length (lines o)))
      /\ 1 <= avg_line_length lf).
Proof.
  intros Hne lf. subst lf.
  unfold compute_layout_features. cbn [avg_line_length].
  pose proof (sum_len_lower_bound Hne) as Hsum.
  destruct (lines o) as [|l ls] eqn:El.
  - cbn. split; [split; reflexivity | intro H; congruence].
  - assert (Hn : (0 < Z.of_nat (List.length (l :: ls)))%Z)
      by (cbn [List.length]; lia).
    rewrite (proj2 (Z.ltb_lt _ _) Hn). split.
    + rewrite (Qdiv_Z_zero_iff _ Hn). split; [intro H; lia | discriminate].
    + intros _. split; [reflexivity|].
      apply Qle_shift_div_l.
      * rewrite <- (Zlt_Qlt 0). exact Hn.
      * rewrite Qmult_1_l, <- Zle_Qle. exact Hsum.
Qed.

(** C7.  When no line is empty, [avg_line_length] is 0.0 exactly when
    the sequence of lines is empty, that is, exactly when [line_count],
    which is the number of lines given, is 0; and when the sequence is not
    empty it is the sum of the lengths of the lines divided by their
    number. *)
Theorem avg_line_length_zero_iff (ucd : UnicodeData) (o : OcrResult) :
  Forall (fun l => l <> []) (lines o) ->
  let lf := compute_layout_features ucd o in
  line_count lf = Z.of_nat (List.length (lines o))
  /\ (avg_line_length lf == 0 <-> lines o = [])
  /\ (avg_line_length lf == 0 <-> line_count lf = 0%Z)
  /\ (lines o <> [] ->
      avg_line_length lf ==
        inject_Z (Py.sum (map len (lines o)))
          / inject_Z (Z.of_nat (List.length (lines o)))).
Proof.
  intros Hne lf.
  destruct (layout_of_nonempty_lines ucd o Hne) as [Hz Hmean].
  fold lf in Hz, Hmean.
  assert (Hc : line_count lf = Z.of_nat (List.length (lines o)))
    by reflexivity.
  split; [exact Hc|]. split; [exact Hz|]. split.
  - rewrite Hz, Hc. destruct (lines o); cbn [List.length]; split;
      intro H; try reflexivity; try discriminate; lia.
  - intro H. apply (proj1 (Hmean H)).
Qed.

(** C8.  [line_count] is the number of lines, and neither the bullet
    count nor the numbered count is negative or exceeds it. *)
Theorem layout_counts_bounded (ucd : UnicodeData) (o : OcrResult) :
  let lf := compute_layout_features ucd o in
  line_count lf = Z.of_nat (List.length (lines o))
  /\ (0 <= bullet_lines lf <= line_count lf)%Z
  /\ (0 <= numbered_lines lf <= line_count lf)%Z.
Proof.
  intro lf. subst lf. unfold compute_layout_features.
  cbn [line_count bullet_lines numbered_lines].
  split; [reflexivity|]. split; apply count_if_bounds.
Qed.

(** ** The lexical extractor *)

(** C9.  Every count is at most the size of its vocabulary: eleven units,
    ten cooking verbs, eight workout terms, seven body parts, and at most
    five quote markers. *)
Theorem vocabulary_bounds (ucd : UnicodeData) (o : OcrResult) :
  let f := compute_features ucd o in
  (num_units f <= 11)%Z
  /\ (num_cooking_verbs f <= 10)%Z
  /\ (num_workout_terms f <= 8)%Z
  /\ (num_body_parts f <= 7)%Z
  /\ (quote_mark_count f <= 5)%Z.
Proof.
  intro f. subst f. unfold compute_features.
  cbn [num_units num_cooking_verbs num_workout_terms num_body_parts
       quote_mark_count].
  repeat split;
    match goal with
    | |- (Py.count_if ?p ?xs <= _)%Z =>
        pose proof (count_if_bounds p xs) as H;
        cbn [List.length MEASURE_UNITS COOKING_VERBS WORKOUT_TERMS
             WORKOUT_BODY_PARTS QUOTE_MARKERS] in H;
        lia
    end.
Qed.

(** The quote markers that the source's list literal holds are four, so
    the count of them cannot pass four. *)
Lemma quote_mark_count_bound (ucd : UnicodeData) (o : OcrResult) :
  (0 <= quote_mark_count (compute_features ucd o)
   <= Z.of_nat (List.length QUOTE_MARKERS))%Z
  /\ List.length QUOTE_MARKERS = 4%nat.
Proof. split; [apply count_if_bounds | reflexivity]. Qed.

(** C10.  A text with an l or a g in it, in either case and wherever it
    stands, has at least one measurement unit; the guard of the last rule
    of [score_quote] is then false, and the quote score stays within what
    the other four rules can give. *)
Theorem l_or_g_is_a_unit (ucd : UnicodeData) (o : OcrResult) :
  existsb is_l_or_g (full_text o) = true ->
  let f := compute_features ucd o in
  (1 <= num_units f)%Z
  /\ (num_units f =? 0)%Z && (num_workout_terms f =? 0)%Z = false
  /\ score_quote ucd f <= 7.
Proof.
  intros H f.
  assert (Hu : (1 <= num_units f)%Z).
  { subst f. cbn [compute_features num_units].
    destruct (lower_has_l_or_g ucd _ H) as [Hl | Hg].
    - apply count_if_witness with (x := lit "l"); [|exact Hl].
      unfold MEASURE_UNITS. cbn. tauto.
    - apply count_if_witness with (x := lit "g"); [|exact Hg].
      unfold MEASURE_UNITS. cbn. tauto. }
  assert (Hg : (num_units f =? 0)%Z = false) by (apply Z.eqb_neq; lia).
  split; [exact Hu|]. split; [rewrite Hg; reflexivity|].
  unfold score_quote. rewrite Hg. cbn [andb].
  destruct (quote_line_loop_cases ucd (lines (ocr f)) 0) as [-> | ->];
    split_ifs; lra.
Qed.

(** ** The statements above, at concrete inputs *)

Lemma classify_tie_priority_witness :
  classify latin1_only Examples.all_zero_feats 0
    = Some Examples.all_zero_result
  /\ 0 <= max_score latin1_only Examples.all_zero_feats
  /\ score_workout latin1_only Examples.all_zero_feats
       == score_recipe latin1_only Examples.all_zero_feats
  /\ ((score_recipe latin1_only Examples.all_zero_feats
         == max_score latin1_only Examples.all_zero_feats ->
       item_type Examples.all_zero_result = "recipe"%string)
      /\ (~ score_recipe latin1_only Examples.all_zero_feats
              == max_score latin1_only Examples.all_zero_feats ->
          score_workout latin1_only Examples.all_zero_feats
              == max_score latin1_only Examples.all_zero_feats ->
          item_type Examples.all_zero_result = "workout"%string)
      /\ (~ score_recipe latin1_only Examples.all_zero_feats
              == max_score latin1_only Examples.all_zero_feats ->
          ~ score_workout latin1_only Examples.all_zero_feats
              == max_score latin1_only Examples.all_zero_feats ->
          item_type Examples.all_zero_result = "quote"%string)).
Proof.
  split; [vm_compute; reflexivity|].
  split; [vm_compute; discriminate|].
  split; [vm_compute; reflexivity|].
  apply (@classify_tie_priority latin1_only Examples.all_zero_feats 0
           Examples.all_zero_result).
  - vm_compute. reflexivity.
  - vm_compute. discriminate.
Defined.

Lemma score_workout_ingredients_penalty_witness :
  same_but_ingredients (Examples.with_ingredients true)
    (Examples.with_ingredients false)
  /\ score_workout latin1_only (Examples.with_ingredients true)
       == score_workout latin1_only (Examples.with_ingredients false) - 2.
Proof.
  assert (H : same_but_ingredients (Examples.with_ingredients true)
                (Examples.with_ingredients false)).
  { unfold same_but_ingredients. simpl. tauto. }
  split; [exact H|].
  apply (@score_workout_ingredients_penalty latin1_only
           (Examples.with_ingredients true) (Examples.with_ingredients false));
    [exact H | reflexivity | reflexivity].
Defined.

Lemma avg_line_length_zero_iff_witness :
  Forall (fun l => l <> []) (lines Examples.workout_ocr)
  /\ (let lf := compute_layout_features latin1_only Examples.workout_ocr in
      line_count lf = Z.of_nat (List.length (lines Examples.workout_ocr))
      /\ (avg_line_length lf == 0 <-> lines Examples.workout_ocr = [])
      /\ (avg_line_length lf == 0 <-> line_count lf = 0%Z)
      /\ (lines Examples.workout_ocr <> [] ->
          avg_line_length lf ==
            inject_Z (Py.sum (map len (lines Examples.workout_ocr)))
              / inject_Z (Z.of_nat (List.length (lines Examples.workout_ocr))))).
Proof.
  assert (H : Forall (fun l => l <> []) (lines Examples.workout_ocr)).
  { simpl. repeat constructor; discriminate. }
  split; [exact H|].
  apply (@avg_line_length_zero_iff latin1_only Examples.workout_ocr H).
Defined.

Lemma l_or_g_is_a_unit_witness :
  existsb is_l_or_g (full_text Examples.workout_ocr) = true
  /\ (let f := compute_features latin1_only Examples.workout_ocr in
      (1 <= num_units f)%Z
      /\ (num_units f =? 0)%Z && (num_workout_terms f =? 0)%Z = false
      /\ score_quote latin1_only f <= 7).
Proof.
  split; [vm_compute; reflexivity|].
  apply (@l_or_g_is_a_unit latin1_only Examples.workout_ocr).
  vm_compute. reflexivity.
Defined.

(** * Further properties of the scorers and the classifier *)

Section ScoreRanges.
Variable ucd : UnicodeData.

Lemma score_recipe_upper (f : Features) : score_recipe ucd f <= 10.
Proof. unfold score_recipe. split_ifs; lra. Qed.

Lemma score_workout_bounds (f : Features) :
  -2 <= score_workout ucd f /\ score_workout ucd f <= 9.
Proof. unfold score_workout. split_ifs; lra. Qed.

Lemma score_quote_upper (f : Features) : score_quote ucd f <= 8.
Proof.
  unfold score_quote.
  destruct (quote_line_loop_cases ucd (lines (ocr f)) 0) as [-> | ->];
    split_ifs; lra.
Qed.

End ScoreRanges.

(** X1.  The recipe score lies between 0.0 and 10.0, the workout score between
    -2.0 and 9.0, the quote score between 0.0 and 8.0, and each of these
    six values is the score of some feature record. *)
Theorem score_ranges (ucd : UnicodeData) :
  (forall f, 0 <= score_recipe ucd f <= 10)
  /\ (forall f, -2 <= score_workout ucd f <= 9)
  /\ (forall f, 0 <= score_quote ucd f <= 8)
  /\ score_recipe ucd Examples.all_zero_feats == 0
  /\ score_recipe ucd top_recipe_feats == 10
  /\ score_workout ucd bottom_workout_feats == -2
  /\ score_workout ucd top_workout_feats == 9
  /\ score_quote ucd Examples.all_zero_feats == 0
  /\ score_quote ucd top_quote_feats == 8.
Proof.
  split; [intro f; split; [apply score_recipe_nonneg | apply score_recipe_upper]|].
  split; [intro f; apply score_workout_bounds|].
  split; [intro f; split; [apply score_quote_nonneg | apply score_quote_upper]|].
  repeat split; vm_compute; reflexivity.
Qed.

(** X2.  No feature record is given a category at a threshold above 10.0. *)
Theorem classify_above_ten_is_none (ucd : UnicodeData) (f : Features) (t : Q) :
  10 < t ->
  exists res, classify ucd f t = Some res /\ item_type res = "none"%string.
Proof.
  intro Ht.
  destruct (classify_cases ucd f t) as [bt [bs [E Hsel]]].
  eexists. split; [exact E|]. cbn [item_type].
  pose proof (score_recipe_upper ucd f).
  pose proof (score_workout_bounds ucd f) as [_ ?].
  pose proof (score_quote_upper ucd f).
  assert (Elt : Py.Qlt_bool bs t = true).
  { apply Qlt_bool_iff.
    destruct Hsel as [[_ [-> _]] | [[_ [-> _]] | [_ [-> _]]]]; lra. }
  rewrite Elt. reflexivity.
Qed.

(** X3.  A category given at one threshold is given at every lower one, and a
    "none" at one threshold is a "none" at every higher one. *)
Theorem classify_threshold_monotone (ucd : UnicodeData) (f : Features)
    (t t' : Q) (r r' : ClassificationResult) :
  classify ucd f t = Some r ->
  classify ucd f t' = Some r' ->
  t' <= t ->
  (item_type r <> "none"%string -> item_type r' = item_type r)
  /\ (item_type r' = "none"%string -> item_type r = "none"%string).
Proof.
  intros E E' Hle.
  destruct (classify_cases ucd f t) as [bt [bs [E1 Hsel]]].
  destruct (classify_cases ucd f t') as [bt' [bs' [E1' Hsel']]].
  rewrite E in E1. injection E1 as ->.
  rewrite E' in E1'. injection E1' as ->.
  cbn [item_type].
  assert (Hsame : bt' = bt /\ bs' = bs).
  { destruct Hsel as [[-> [-> [? ?]]] | [[-> [-> [? ?]]] | [-> [-> [? ?]]]]];
      destruct Hsel' as [[-> [-> [? ?]]] | [[-> [-> [? ?]]] | [-> [-> [? ?]]]]];
      try (split; reflexivity); exfalso; lra. }
  destruct Hsame as [-> ->].
  assert (Hbt : bt <> "none"%string).
  { destruct Hsel as [[-> _] | [[-> _] | [-> _]]]; discriminate. }
  destruct (Py.Qlt_bool bs t) eqn:Et; destruct (Py.Qlt_bool bs t') eqn:Et';
    split; intros; try reflexivity; try congruence.
  - apply Qlt_bool_false_iff in Et. apply Qlt_bool_iff in Et'. exfalso. lra.
  - apply Qlt_bool_false_iff in Et. apply Qlt_bool_iff in Et'. exfalso. lra.
Qed.

(** X4.  Looking the answer up in the returned scores: "none" is not a key of
    the mapping, and any other answer is a key whose score reaches the
    threshold and is not below any of the three scores. *)
Theorem classify_scores_lookup (ucd : UnicodeData) (f : Features) (t : Q)
    (r : ClassificationResult) :
  classify ucd f t = Some r ->
  (item_type r = "none"%string -> Py.dict_get (scores r) (item_type r) = None)
  /\ (item_type r <> "none"%string ->
      exists s,
        Py.dict_get (scores r) (item_type r) = Some s
        /\ t <= s
        /\ score_recipe ucd f <= s
        /\ score_workout ucd f <= s
        /\ score_quote ucd f <= s).
Proof.
  intro E.
  destruct (classify_cases ucd f t) as [bt [bs [E1 Hsel]]].
  rewrite E in E1. injection E1 as ->. cbn [item_type scores].
  destruct (Py.Qlt_bool bs t) eqn:Et.
  - split; [intros _; reflexivity | intro H; congruence].
  - apply Qlt_bool_false_iff in Et. split.
    + intro H. destruct Hsel as [[-> _] | [[-> _] | [-> _]]]; discriminate.
    + intros _. exists bs.
      destruct Hsel as [[-> [-> [? ?]]] | [[-> [-> [? ?]]] | [-> [-> [? ?]]]]];
        (split; [reflexivity | repeat split; lra]).
Qed.

(** X5.  Raising [num_cooking_verbs] alone adds exactly 2.0 to the recipe score
    when the count crosses from below 2 to 2 or more, and nothing
    otherwise. *)
Theorem score_recipe_cooking_verbs_step (ucd : UnicodeData) (f1 f2 : Features) :
  same_but_cooking_verbs f1 f2 ->
  (num_cooking_verbs f1 <= num_cooking_verbs f2)%Z ->
  score_recipe ucd f2 ==
    score_recipe ucd f1
    + (if (num_cooking_verbs f1 <? 2)%Z && (2 <=? num_cooking_verbs f2)%Z
       then 2 else 0).
Proof.
  intros [Ho [Hl [Hu [_ [_ [Hi _]]]]]] Hle.
  unfold score_recipe. rewrite Ho, Hl, Hu, Hi.
  destruct (num_cooking_verbs f1 <? 2)%Z eqn:E1;
    destruct (2 <=? num_cooking_verbs f2)%Z eqn:E2;
    destruct (2 <=? num_cooking_verbs f1)%Z eqn:E3;
    try (apply Z.ltb_lt in E1); try (apply Z.ltb_ge in E1);
    try (apply Z.leb_le in E2); try (apply Z.leb_gt in E2);
    try (apply Z.leb_le in E3); try (apply Z.leb_gt in E3);
    try lia; cbn [andb]; split_ifs; lra.
Qed.

Lemma add_if_mono (c1 c2 : bool) (w x y : Q) :
  0 <= w -> (c1 = true -> c2 = true) -> x <= y ->
  (if c1 then x + w else x) <= (if c2 then y + w else y).
Proof.
  intros Hw Hc Hxy. destruct c1.
  - rewrite (Hc eq_refl). lra.
  - destruct c2; lra.
Qed.

Lemma sub_if_anti (c1 c2 : bool) (w x y : Q) :
  0 <= w -> (c2 = true -> c1 = true) -> x <= y ->
  (if c1 then x - w else x) <= (if c2 then y - w else y).
Proof.
  intros Hw Hc Hxy. destruct c2.
  - rewrite (Hc eq_refl). lra.
  - destruct c1; lra.
Qed.

Ltac guard_implies :=
  let H := fresh in
  intro H;
  rewrite ?orb_true_iff, ?Z.leb_le, ?Z.ltb_lt in *;
  solve [exact H | lia | auto].

(** X6.  More recipe evidence never lowers the recipe score: with the same
    lines, setting the ingredients flag or raising the unit, cooking-verb,
    bullet or numbered counts leaves [score_recipe] equal or greater. *)
Theorem score_recipe_monotone (ucd : UnicodeData) (f1 f2 : Features) :
  recipe_evidence_le f1 f2 ->
  score_recipe ucd f1 <= score_recipe ucd f2.
Proof.
  intros [Hl [Hi [Hu [Hv [Hb Hn]]]]].
  unfold score_recipe. rewrite Hl. cbv zeta.
  repeat (apply add_if_mono; [lra | guard_implies |]).
  lra.
Qed.

(** X7.  More workout evidence never lowers the workout score: with the same
    lines, raising the workout-term, body-part, bullet or numbered counts,
    or clearing the ingredients flag, leaves [score_workout] equal or
    greater. *)
Theorem score_workout_monotone (ucd : UnicodeData) (f1 f2 : Features) :
  workout_evidence_le f1 f2 ->
  score_workout ucd f1 <= score_workout ucd f2.
Proof.
  intros [Hl [Hi [Ht [Hp [Hb Hn]]]]].
  unfold score_workout. rewrite Hl. cbv zeta.
  apply sub_if_anti; [lra | guard_implies |].
  repeat (apply add_if_mono; [lra | guard_implies |]).
  lra.
Qed.

(** X8.  The quote-marker rule of [score_quote] pays once: the loop adds 2.0
    when at least one line holds a quote marker and four words or more,
    whatever the number of such lines, and adds nothing otherwise. *)
Theorem quote_marker_rule_pays_once (ucd : UnicodeData) (ls : list str) (s : Q) :
  quote_line_loop ucd ls s =
    if existsb (quote_line_qualifies ucd) ls then s + 2 else s.
Proof.
  induction ls as [|l ls IH]; cbn [quote_line_loop existsb]; [reflexivity|].
  unfold quote_line_qualifies at 1.
  destruct (_ && _); [reflexivity | exact IH].
Qed.

(** * Further properties of the extractor *)

(** X10.  No count that the extractor produces is negative, and neither is the
    average line length. *)
Theorem feature_counts_nonneg (ucd : UnicodeData) (o : OcrResult) :
  let f := compute_features ucd o in
  (0 <= num_units f)%Z
  /\ (0 <= num_cooking_verbs f)%Z
  /\ (0 <= num_workout_terms f)%Z
  /\ (0 <= num_body_parts f)%Z
  /\ (0 <= quote_mark_count f)%Z
  /\ (0 <= line_count (layout f))%Z
  /\ 0 <= avg_line_length (layout f).
Proof.
  intro f. subst f. unfold compute_features, compute_layout_features.
  cbn [num_units num_cooking_verbs num_workout_terms num_body_parts
       quote_mark_count layout line_count avg_line_length].
  repeat split; try apply count_if_bounds; try lia.
  destruct (0 <? Z.of_nat (List.length (lines o)))%Z eqn:E; [|lra].
  apply Z.ltb_lt in E.
  apply Qle_shift_div_l.
  - rewrite <- (Zlt_Qlt 0). exact E.
  - rewrite Qmult_0_l. rewrite <- (Zle_Qle 0).
    assert (H : forall ls : list str, (0 <= Py.sum (map len ls))%Z).
    { induction ls as [|l ls IH]; [reflexivity|].
      cbn [map]. rewrite sum_cons. unfold len at 1. lia. }
    apply H.
Qed.

Lemma sum_len_between (lo hi : Z) (ls : list str) :
  Forall (fun l => (lo <= len l <= hi)%Z) ls ->
  (lo * Z.of_nat (List.length ls) <= Py.sum (map len ls)
   <= hi * Z.of_nat (List.length ls))%Z.
Proof.
  induction 1 as [|l ls Hl _ IH]; [cbn; lia|].
  cbn [map List.length]. rewrite sum_cons. lia.
Qed.

(** X11.  The average line length lies between the length of the shortest line
    and that of the longest: if every line has between [lo] and [hi]
    characters and there is a line, so has the average. *)
Theorem avg_line_length_between (ucd : UnicodeData) (o : OcrResult)
    (lo hi : Z) :
  Forall (fun l => (lo <= len l <= hi)%Z) (lines o) ->
  lines o <> [] ->
  inject_Z lo <= avg_line_length (compute_layout_features ucd o) <= inject_Z hi.
Proof.
  intros Hall Hne.
  unfold compute_layout_features. cbn [avg_line_length].
  pose proof (sum_len_between Hall) as [Hlo Hhi].
  assert (Hn : (0 < Z.of_nat (List.length (lines o)))%Z).
  { destruct (lines o); [congruence | cbn; lia]. }
  rewrite (proj2 (Z.ltb_lt _ _) Hn).
  assert (HnQ : 0 < inject_Z (Z.of_nat (List.length (lines o)))).
  { rewrite <- (Zlt_Qlt 0). exact Hn. }
  split.
  - apply Qle_shift_div_l; [exact HnQ|].
    rewrite <- inject_Z_mult, <- Zle_Qle. exact Hlo.
  - apply Qle_shift_div_r; [exact HnQ|].
    rewrite <- inject_Z_mult, <- Zle_Qle. exact Hhi.
Qed.

(** ** Matching is by substring and blind to case *)

Lemma startswith_app (n y : str) : startswith n (n ++ y) = true.
Proof.
  induction n as [|c n IH]; cbn [startswith app]; [reflexivity|].
  rewrite N.eqb_refl. exact IH.
Qed.

Lemma startswith_spec (n h : str) :
  startswith n h = true <-> exists y, h = n ++ y.
Proof.
  revert h. induction n as [|c n IH]; intro h; cbn [startswith].
  - split; [intros _; exists h; reflexivity | reflexivity].
  - destruct h as [|d h].
    + split; [discriminate | intros [y E]; discriminate].
    + rewrite andb_true_iff, N.eqb_eq, IH. split.
      * intros [-> [y ->]]. exists y. reflexivity.
      * intros [y E]. cbn [app] in E. injection E as -> ->.
        split; [reflexivity | exists y; reflexivity].
Qed.

(** [needle in hay] holds exactly when [needle] is a factor of [hay]. *)
Lemma contains_spec (n h : str) :
  contains n h = true <-> exists x y, h = x ++ n ++ y.
Proof.
  induction h as [|d h IH]; cbn [contains].
  - rewrite orb_false_r, startswith_spec. split.
    + intros [y E]. exists [], y. exact E.
    + intros [x [y E]]. symmetry in E. apply app_eq_nil in E.
      destruct E as [-> E]. exists y. symmetry. exact E.
  - rewrite orb_true_iff, startswith_spec, IH. split.
    + intros [[y E] | [x [y E]]].
      * exists [], y. exact E.
      * exists (d :: x), y. rewrite E. reflexivity.
    + intros [[|c x] [y E]].
      * left. exists y. exact E.
      * cbn [app] in E. injection E as <- ->. right. exists x, y. reflexivity.
Qed.

Lemma latin1_lower_below (c : N) : (latin1_lower c < 256)%N -> (c < 256)%N.
Proof.
  unfold latin1_lower, in_range.
  destruct ((0x41 <=? c)%N && (c <=? 0x5A)%N) eqn:E1.
  - apply andb_true_iff in E1. destruct E1 as [_ E1].
    apply N.leb_le in E1. lia.
  - destruct ((0xC0 <=? c)%N && (c <=? 0xDE)%N && negb (c =? TIMES)%N) eqn:E2.
    + rewrite !andb_true_iff in E2. destruct E2 as [[_ E2] _].
      apply N.leb_le in E2. lia.
    + auto.
Qed.

Section CaseBlind.
Variable ucd : UnicodeData.

Lemma lower_from_app (s : str) (x y : str) :
  forall i,
    lower_from ucd s i (x ++ y) =
      lower_from ucd s i x ++ lower_from ucd s (i + List.length x) y.
Proof.
  induction x as [|c x IH]; intro i; cbn [app lower_from List.length].
  - rewrite Nat.add_0_r. reflexivity.
  - rewrite IH, <- app_assoc, Nat.add_succ_r. reflexivity.
Qed.

Lemma lower_from_below (s : str) (u : str) :
  Forall (fun c => (c < 256)%N) u ->
  forall i, lower_from ucd s i u = map latin1_lower u.
Proof.
  induction 1 as [|c u Hc _ IH]; intro i; cbn [lower_from map]; [reflexivity|].
  apply N.ltb_lt in Hc. rewrite Hc, IH. reflexivity.
Qed.

(** A factor that spells [t] in some mix of cases lower-cases to [t]
    inside the lower-cased text. *)
Lemma lower_keeps_factor (t u a b : str) :
  Forall (fun c => (c < 256)%N) t ->
  map latin1_lower u = t ->
  contains t (lower ucd (a ++ u ++ b)) = true.
Proof.
  intros Ht Hu.
  assert (Hb : Forall (fun c => (c < 256)%N) u).
  { subst t. apply Forall_forall. intros c Hc.
    apply latin1_lower_below.
    rewrite Forall_forall in Ht. apply Ht. apply in_map. exact Hc. }
  unfold lower. rewrite !lower_from_app, (lower_from_below _ Hb), Hu.
  apply contains_spec. eexists. eexists. reflexivity.
Qed.

Lemma vocabulary_is_lower :
  Forall (fun t => lower ucd t = t /\ Forall (fun c => (c < 256)%N) t)
    (MEASURE_UNITS ++ COOKING_VERBS ++ INGREDIENT_SECTION_TERMS ++ STEP_TERMS
       ++ WORKOUT_TERMS ++ WORKOUT_BODY_PARTS).
Proof.
  repeat (apply Forall_cons;
          [split; [reflexivity | repeat constructor]|]).
  apply Forall_nil.
Qed.

Lemma term_found (t u a b : str) :
  In t (MEASURE_UNITS ++ COOKING_VERBS ++ INGREDIENT_SECTION_TERMS ++ STEP_TERMS
          ++ WORKOUT_TERMS ++ WORKOUT_BODY_PARTS) ->
  map latin1_lower u = t ->
  contains (lower ucd t) (lower ucd (a ++ u ++ b)) = true.
Proof.
  intros Hin Hu.
  pose proof vocabulary_is_lower as Hv. rewrite Forall_forall in Hv.
  destruct (Hv t Hin) as [-> Hb].
  apply lower_keeps_factor; assumption.
Qed.

End CaseBlind.

(** X14.  A vocabulary term written in any mix of upper and lower case, alone
    or inside a longer word of the full text, is found there: such a
    measurement unit is counted, and such a section marker sets its
    flag. *)
Theorem text_terms_found_in_any_case (ucd : UnicodeData) (o : OcrResult)
    (t u a b : str) :
  full_text o = a ++ u ++ b ->
  map latin1_lower u = t ->
  let f := compute_features ucd o in
  (In t MEASURE_UNITS -> (1 <= num_units f)%Z)
  /\ (In t INGREDIENT_SECTION_TERMS -> has_ingredients_section f = true)
  /\ (In t STEP_TERMS -> has_steps_section f = true).
Proof.
  intros Ht Hu f. subst f. unfold compute_features.
  cbn [num_units has_ingredients_section has_steps_section].
  rewrite Ht.
  repeat split; intro Hin.
  - apply count_if_witness with (x := t); [exact Hin|].
    apply term_found; [|exact Hu]. apply in_or_app. left. exact Hin.
  - apply existsb_exists. exists t. split; [exact Hin|].
    apply term_found; [|exact Hu].
    do 2 (apply in_or_app; right). apply in_or_app. left. exact Hin.
  - apply existsb_exists. exists t. split; [exact Hin|].
    apply term_found; [|exact Hu].
    do 3 (apply in_or_app; right). apply in_or_app. left. exact Hin.
Qed.

(** X15.  The same for the terms looked up line by line: a cooking verb, a
    workout term or a body part written in any mix of cases anywhere in
    some line is counted. *)
Theorem line_terms_found_in_any_case (ucd : UnicodeData) (o : OcrResult)
    (t u a b : str) :
  In (a ++ u ++ b) (lines o) ->
  map latin1_lower u = t ->
  let f := compute_features ucd o in
  (In t COOKING_VERBS -> (1 <= num_cooking_verbs f)%Z)
  /\ (In t WORKOUT_TERMS -> (1 <= num_workout_terms f)%Z)
  /\ (In t WORKOUT_BODY_PARTS -> (1 <= num_body_parts f)%Z).
Proof.
  intros Hl Hu f. subst f. unfold compute_features.
  cbn [num_cooking_verbs num_workout_terms num_body_parts].
  assert (H : In t (MEASURE_UNITS ++ COOKING_VERBS ++ INGREDIENT_SECTION_TERMS
                      ++ STEP_TERMS ++ WORKOUT_TERMS ++ WORKOUT_BODY_PARTS) ->
              in_any_line ucd o t = true).
  { intro Hin. unfold in_any_line. apply existsb_exists.
    exists (a ++ u ++ b). split; [exact Hl|].
    apply term_found; assumption. }
  repeat split; intro Hin;
    (apply count_if_witness with (x := t); [exact Hin|]); apply H.
  - apply in_or_app; right. apply in_or_app; left. exact Hin.
  - do 4 (apply in_or_app; right). apply in_or_app; left. exact Hin.
  - do 5 (apply in_or_app; right). exact Hin.
Qed.

(** ** What the line patterns accept *)

Lemma star_cls_forall (p : N -> bool) (r : regex) (w : str) :
  matches r w -> r = Star (Cls p) -> Forall (fun c => p c = true) w.
Proof.
  induction 1 as [| | | | | |r1 s1 s2 H1 _ H2 IH2]; intro E; try discriminate.
  - constructor.
  - injection E as ->. inversion H1; subst.
    cbn [app]. constructor; [assumption | apply IH2; reflexivity].
Qed.

Lemma plus_cls_shape (p : N -> bool) (w : str) :
  matches (Plus (Cls p)) w ->
  exists c w', w = c :: w' /\ p c = true /\ matches (Star (Cls p)) w'.
Proof.
  unfold Plus. intro H. inversion H as [| |? ? s1 s2 H1 H2| | | |]; subst.
  inversion H1; subst. exists c, s2. auto.
Qed.

Section LineShapes.
Variable ucd : UnicodeData.

Lemma bullet_shape (s : str) :
  re_match (bullet_pattern ucd) s = true ->
  exists w g t,
    s = w ++ g :: t
    /\ Forall (fun c => isspace ucd c = true) w
    /\ one_of [BULLET; 0x2D; 0x2A; 0x2B]%N g = true.
Proof.
  intro H. apply re_match_spec in H. destruct H as [p [q [-> H]]].
  unfold bullet_pattern in H.
  inversion H as [| |? ? w s2 Hw H2| | | |]; subst.
  inversion H2 as [| |? ? sg s3 Hg H3| | | |]; subst.
  inversion Hg; subst.
  exists w, c, (s3 ++ q). split.
  - rewrite <- app_assoc. reflexivity.
  - split; [apply (star_cls_forall Hw eq_refl) | assumption].
Qed.

Lemma numbered_shape (s : str) :
  re_match (numbered_pattern ucd) s = true ->
  exists w d t,
    s = w ++ d :: t
    /\ Forall (fun c => isspace ucd c = true) w
    /\ isdecimal ucd d = true.
Proof.
  intro H. apply re_match_spec in H. destruct H as [p [q [-> H]]].
  unfold numbered_pattern in H.
  inversion H as [| |? ? w s2 Hw H2| | | |]; subst.
  inversion H2 as [| |? ? sd s3 Hd H3| | | |]; subst.
  apply plus_cls_shape in Hd. destruct Hd as [d [ds [-> [Hd _]]]].
  exists w, d, (ds ++ s3 ++ q). split.
  - rewrite <- !app_assoc. reflexivity.
  - split; [apply (star_cls_forall Hw eq_refl) | assumption].
Qed.

Lemma glyph_is_no_space_or_digit (g : N) :
  consistent_classes ucd ->
  one_of [BULLET; 0x2D; 0x2A; 0x2B]%N g = true ->
  isspace ucd g = false /\ isdecimal ucd g = false.
Proof.
  intros [_ [Hs Hd]] Hg. unfold one_of in Hg. cbn [existsb] in Hg.
  rewrite !orb_true_iff, !N.eqb_eq in Hg.
  destruct Hg as [-> | [-> | [-> | [-> | Hg]]]]; try discriminate;
    split; try assumption; reflexivity.
Qed.

Lemma bullet_excludes_numbered (s : str) :
  consistent_classes ucd ->
  re_match (bullet_pattern ucd) s = true ->
  re_match (numbered_pattern ucd) s = false.
Proof.
  intros Hc Hb.
  destruct (re_match (numbered_pattern ucd) s) eqn:Hn; [exfalso | reflexivity].
  apply bullet_shape in Hb. destruct Hb as [w1 [g [t1 [E1 [Hw1 Hg]]]]].
  apply numbered_shape in Hn. destruct Hn as [w2 [d [t2 [E2 [Hw2 Hd]]]]].
  destruct (glyph_is_no_space_or_digit g Hc Hg) as [Hgs Hgd].
  destruct Hc as [Hsd _].
  rewrite E1 in E2. apply app_eq_app in E2.
  destruct E2 as [z [[Ew Ez] | [Ew Ez]]].
  - destruct z as [|c z]; cbn [app] in Ez.
    + injection Ez as -> _. congruence.
    + injection Ez as -> _. subst w1.
      apply Forall_app in Hw1. destruct Hw1 as [_ Hz].
      inversion Hz; subst. rewrite (Hsd _ H1) in Hd. discriminate.
  - destruct z as [|c z]; cbn [app] in Ez.
    + injection Ez as -> _. congruence.
    + injection Ez as -> _. subst w2.
      apply Forall_app in Hw2. destruct Hw2 as [_ Hz].
      inversion Hz; subst. congruence.
Qed.

(** An attribution line that opens with a hyphen has the shape of a bullet
    line too. *)
Lemma hyphen_author_line_is_bullet (s : str) :
  ~ In EM_DASH s ->
  re_match (quote_author_pattern ucd) s = true ->
  re_match (bullet_pattern ucd) s = true.
Proof.
  intros Hno H. apply re_match_spec in H. destruct H as [p [q [-> H]]].
  unfold quote_author_pattern in H.
  inversion H as [| |? ? w s2 Hw H2| | | |]; subst.
  inversion H2 as [| |? ? sg s3 Hg H3| | | |]; subst.
  inversion Hg as [|? d Hd| | | | |]; subst.
  inversion H3 as [| |? ? sp s4 Hsp H4| | | |]; subst.
  unfold one_of in Hd. cbn [existsb] in Hd.
  rewrite !orb_true_iff, !N.eqb_eq in Hd.
  destruct Hd as [-> | [-> | Hd]]; [|clear Hno|discriminate].
  - exfalso. apply Hno. rewrite !in_app_iff. left. right. left. left.
    reflexivity.
  - apply re_match_spec.
    exists (w ++ [0x2D%N] ++ sp), (s4 ++ q). split.
    + rewrite <- !app_assoc. reflexivity.
    + unfold bullet_pattern.
      constructor; [exact Hw|]. constructor; [|exact Hsp].
      constructor. reflexivity.
Qed.

End LineShapes.

Lemma count_if_disjoint (A : Type) (p q : A -> bool) (xs : list A) :
  (forall x, p x = true -> q x = false) ->
  (Py.count_if p xs + Py.count_if q xs <= Z.of_nat (List.length xs))%Z.
Proof.
  intro H. rewrite !count_if_length.
  induction xs as [|x xs IH]; [reflexivity|].
  cbn [filter List.length].
  destruct (p x) eqn:Ep.
  - rewrite (H x Ep). cbn [List.length]. lia.
  - destruct (q x); cbn [List.length]; lia.
Qed.

Lemma count_if_mono (A : Type) (p q : A -> bool) (xs : list A) :
  (forall x, In x xs -> p x = true -> q x = true) ->
  (Py.count_if p xs <= Py.count_if q xs)%Z.
Proof.
  intro H. rewrite !count_if_length.
  induction xs as [|x xs IH]; [reflexivity|].
  cbn [filter].
  assert (IH' : (Z.of_nat (List.length (filter p xs))
                 <= Z.of_nat (List.length (filter q xs)))%Z).
  { apply IH. intros y Hy. apply H. right. exact Hy. }
  destruct (p x) eqn:Ep.
  - rewrite (H x (or_introl eq_refl) Ep). cbn [List.length]. lia.
  - destruct (q x); cbn [List.length]; lia.
Qed.

(** X12.  No line is counted both as a bullet line and as a numbered line, so
    the two counts together do not exceed the number of lines. *)
Theorem bullet_and_numbered_lines_disjoint (ucd : UnicodeData) (o : OcrResult) :
  consistent_classes ucd ->
  let lf := compute_layout_features ucd o in
  (bullet_lines lf + numbered_lines lf <= line_count lf)%Z.
Proof.
  intros Hc lf. subst lf. unfold compute_layout_features.
  cbn [bullet_lines numbered_lines line_count].
  apply count_if_disjoint. intro s. apply bullet_excludes_numbered. exact Hc.
Qed.

(** X13.  When no line holds an em dash, every attribution line opens with a
    hyphen and is counted among the bullet lines as well: a screenshot
    with an attribution has at least one bullet line. *)
Theorem hyphen_attribution_counts_as_bullet (ucd : UnicodeData) (o : OcrResult) :
  Forall (fun l => ~ In EM_DASH l) (lines o) ->
  let f := compute_features ucd o in
  (Py.count_if (re_match (quote_author_pattern ucd)) (lines o)
   <= bullet_lines (layout f))%Z
  /\ (has_quote_author_pattern f = true -> (1 <= bullet_lines (layout f))%Z).
Proof.
  intros Hno f. subst f. unfold compute_features, compute_layout_features.
  cbn [layout bullet_lines has_quote_author_pattern].
  rewrite Forall_forall in Hno.
  split.
  - apply count_if_mono. intros l Hl.
    apply hyphen_author_line_is_bullet. apply Hno. exact Hl.
  - intro H. unfold Py.any in H. apply existsb_exists in H.
    destruct H as [l [Hl Hm]].
    apply count_if_witness with (x := l); [exact Hl|].
    apply hyphen_author_line_is_bullet; [apply Hno; exact Hl | exact Hm].
Qed.

(** * [run_ocr] *)

Import RunOcr.

Lemma splitlines_from_no_break (s : str) :
  forall after cur,
    Forall (fun c => islinebreak c = false) cur ->
    Forall (Forall (fun c => islinebreak c = false))
      (splitlines_from after cur s).
Proof.
  induction s as [|c s IH]; intros after cur Hcur; cbn [splitlines_from].
  - destruct cur; [constructor|].
    constructor; [|constructor]. apply Forall_rev. exact Hcur.
  - destruct (after && (c =? 10)%N); [apply IH; constructor|].
    destruct (islinebreak c) eqn:E.
    + constructor; [apply Forall_rev; exact Hcur | apply IH; constructor].
    + apply IH. constructor; assumption.
Qed.

Lemma splitlines_from_factor (text : str) (s : str) :
  forall after cur pre,
    text = pre ++ rev cur ++ s ->
    Forall (fun p => factor_of p text) (splitlines_from after cur s).
Proof.
  induction s as [|c s IH]; intros after cur pre E; cbn [splitlines_from].
  - destruct cur as [|x cur]; [constructor|].
    constructor; [|constructor]. exists pre, []. exact E.
  - assert (E' : text = (pre ++ rev cur ++ [c]) ++ rev [] ++ s).
    { rewrite E. cbn [rev app]. rewrite <- !app_assoc. reflexivity. }
    destruct (after && (c =? 10)%N); [apply (IH _ _ _ E')|].
    destruct (islinebreak c).
    + constructor; [|apply (IH _ _ _ E')].
      exists pre, (c :: s). exact E.
    + apply (IH false (c :: cur) pre).
      rewrite E. cbn [rev]. rewrite <- !app_assoc. reflexivity.
Qed.

Section StripFacts.
Variable ucd : UnicodeData.

Lemma lstrip_suffix (s : str) :
  exists a, s = a ++ lstrip ucd s /\ Forall (fun c => isspace ucd c = true) a.
Proof.
  induction s as [|c s [a [E Ha]]]; cbn [lstrip].
  - exists []. split; [reflexivity | constructor].
  - destruct (isspace ucd c) eqn:Ec.
    + exists (c :: a). cbn [app]. split; [f_equal; exact E | constructor; auto].
    + exists []. split; [reflexivity | constructor].
Qed.

Lemma lstrip_head (s : str) (c : N) (s' : str) :
  lstrip ucd s = c :: s' -> isspace ucd c = false.
Proof.
  induction s as [|d s IH]; cbn [lstrip]; [discriminate|].
  destruct (isspace ucd d) eqn:Ed; [exact IH|].
  intro E. injection E as <- _. exact Ed.
Qed.

Lemma lstrip_all_space (s : str) :
  forallb (isspace ucd) s = true -> lstrip ucd s = [].
Proof.
  induction s as [|c s IH]; cbn [forallb lstrip]; [reflexivity|].
  intro H. apply andb_true_iff in H. destruct H as [-> H]. apply IH. exact H.
Qed.

Lemma rstrip_prefix (s : str) : exists b, s = rstrip ucd s ++ b.
Proof.
  unfold rstrip. destruct (lstrip_suffix (rev s)) as [a [E _]].
  exists (rev a). rewrite <- rev_app_distr, <- E, rev_involutive. reflexivity.
Qed.

Lemma rstrip_last (s : str) (c : N) (s' : str) :
  rstrip ucd s = s' ++ [c] -> isspace ucd c = false.
Proof.
  unfold rstrip. intro E.
  apply (f_equal (@rev N)) in E.
  rewrite rev_involutive, rev_app_distr in E. cbn [rev app] in E.
  apply (lstrip_head _ E).
Qed.

Lemma strip_trimmed (s : str) : trimmed ucd (strip ucd s).
Proof.
  unfold trimmed, strip. split.
  - intros c s' E.
    destruct (rstrip_prefix (lstrip ucd s)) as [b Eb].
    rewrite E in Eb. cbn [app] in Eb. apply (lstrip_head _ Eb).
  - intros c s' E. eapply rstrip_last. exact E.
Qed.

Lemma strip_factor (s : str) : factor_of (strip ucd s) s.
Proof.
  unfold strip.
  destruct (lstrip_suffix s) as [a [Ea _]].
  destruct (rstrip_prefix (lstrip ucd s)) as [b Eb].
  exists a, b. rewrite <- Eb. exact Ea.
Qed.

Lemma factor_trans (l m t : str) :
  factor_of l m -> factor_of m t -> factor_of l t.
Proof.
  intros [a [b ->]] [a' [b' ->]].
  exists (a' ++ a), (b ++ b'). rewrite <- !app_assoc. reflexivity.
Qed.

Lemma factor_forall (P : N -> Prop) (l t : str) :
  factor_of l t -> Forall P t -> Forall P l.
Proof.
  intros [a [b ->]] H.
  apply Forall_app in H. destruct H as [_ H].
  apply Forall_app in H. destruct H as [H _]. exact H.
Qed.

Lemma truthy_nonempty (s : str) : truthy s = true -> s <> [].
Proof. destruct s; [discriminate | discriminate]. Qed.

(** What a run of the engine returns. *)
Lemma ocr_result_of_lines (raw : str) (l : str) :
  In l (lines (ocr_result_of ucd raw)) ->
  l <> []
  /\ trimmed ucd l
  /\ Forall (fun c => islinebreak c = false) l
  /\ factor_of l (full_text (ocr_result_of ucd raw)).
Proof.
  unfold ocr_result_of. cbn [lines full_text].
  intro H. apply in_map_iff in H. destruct H as [p [<- Hp]].
  apply filter_In in Hp. destruct Hp as [Hp Ht].
  pose proof (splitlines_from_no_break (strip ucd raw) false (cur := [])
                (Forall_nil _)) as Hnb.
  pose proof (@splitlines_from_factor (strip ucd raw) (strip ucd raw)
                false [] [] eq_refl) as Hf.
  rewrite Forall_forall in Hnb, Hf.
  split; [apply truthy_nonempty; exact Ht|].
  split; [apply strip_trimmed|].
  split.
  - apply (factor_forall (strip_factor p)). apply Hnb. exact Hp.
  - apply (factor_trans (strip_factor p)). apply Hf. exact Hp.
Qed.

Lemma run_ocr_missed (cache : CacheRead) (t : option str) :
  cache_missed cache ->
  run_ocr ucd cache t =
    Some (match t with
          | Some raw => ocr_result_of ucd raw
          | None => {| full_text := []; lines := [] |}
          end).
Proof. intros [-> | ->]; destruct t; reflexivity. Qed.

End StripFacts.

(** X16.  When the cache gives nothing, the lines that [run_ocr] returns are
    clean: none is empty, none begins or ends with whitespace, none holds
    a line boundary; and the full text is trimmed too. *)
Theorem run_ocr_lines_clean (ucd : UnicodeData) (cache : CacheRead)
    (t : option str) (r : OcrResult) :
  cache_missed cache ->
  run_ocr ucd cache t = Some r ->
  trimmed ucd (full_text r)
  /\ Forall (fun l => l <> [] /\ trimmed ucd l
                      /\ Forall (fun c => islinebreak c = false) l)
       (lines r).
Proof.
  intros Hc E. rewrite (run_ocr_missed ucd t Hc) in E. injection E as <-.
  destruct t as [raw|].
  - split; [apply strip_trimmed|].
    apply Forall_forall. intros l Hl.
    destruct (ocr_result_of_lines ucd raw l Hl) as [H1 [H2 [H3 _]]]. auto.
  - split; [|constructor].
    split; intros c s' E; [discriminate | destruct s'; discriminate].
Qed.

(** X17.  When the cache gives nothing, every line that [run_ocr] returns occurs
    in the full text it returns. *)
Theorem run_ocr_lines_occur_in_text (ucd : UnicodeData) (cache : CacheRead)
    (t : option str) (r : OcrResult) :
  cache_missed cache ->
  run_ocr ucd cache t = Some r ->
  Forall (fun l => factor_of l (full_text r)) (lines r).
Proof.
  intros Hc E. rewrite (run_ocr_missed ucd t Hc) in E. injection E as <-.
  destruct t as [raw|]; [|constructor].
  apply Forall_forall. intros l Hl.
  apply (ocr_result_of_lines ucd raw l Hl).
Qed.

(** X18.  On what [run_ocr] returns when the cache gives nothing, the
    layout analyser counts the lines returned, the average line length is
    0.0 exactly when no line was returned, and it is at least 1.0 when a
    line was returned: no assumption on the lines is needed here. *)
Theorem run_ocr_avg_zero_iff_no_lines (ucd : UnicodeData) (cache : CacheRead)
    (t : option str) (r : OcrResult) :
  cache_missed cache ->
  run_ocr ucd cache t = Some r ->
  let lf := compute_layout_features ucd r in
  line_count lf = Z.of_nat (List.length (lines r))
  /\ (avg_line_length lf == 0 <-> lines r = [])
  /\ (lines r <> [] -> 1 <= avg_line_length lf).
Proof.
  intros Hc E lf.
  assert (Hne : Forall (fun l => l <> []) (lines r)).
  { rewrite (run_ocr_missed ucd t Hc) in E. injection E as <-.
    destruct t as [raw|]; [|constructor].
    apply Forall_forall. intros l Hl.
    apply (ocr_result_of_lines ucd raw l Hl). }
  destruct (layout_of_nonempty_lines ucd r Hne) as [Hz Hmean].
  fold lf in Hz, Hmean.
  split; [reflexivity|]. split; [exact Hz|].
  intro H. apply (proj2 (Hmean H)).
Qed.

Lemma ocr_result_of_blank (ucd : UnicodeData) (raw : str) :
  forallb (isspace ucd) raw = true ->
  ocr_result_of ucd raw = {| full_text := []; lines := [] |}.
Proof.
  intro H. unfold ocr_result_of, strip.
  rewrite (lstrip_all_space ucd raw H). reflexivity.
Qed.

(** X19.  When the cache gives nothing and the engine fails, or returns nothing
    but whitespace, [run_ocr] returns the empty result, and the
    classifier at the default threshold answers "none" on it. *)
Theorem run_ocr_blank_or_failed_is_none (ucd : UnicodeData) (cache : CacheRead)
    (t : option str) :
  cache_missed cache ->
  (t = None \/ exists raw, t = Some raw /\ forallb (isspace ucd) raw = true) ->
  run_ocr ucd cache t = Some {| full_text := []; lines := [] |}
  /\ exists res,
       classify ucd (compute_features ucd {| full_text := []; lines := [] |})
         default_threshold = Some res
       /\ item_type res = "none"%string.
Proof.
  intros Hc Ht. split.
  - rewrite (run_ocr_missed ucd t Hc).
    destruct Ht as [-> | [raw [-> Hraw]]]; [reflexivity|].
    rewrite (ocr_result_of_blank ucd raw Hraw). reflexivity.
  - eexists. split; [vm_compute; reflexivity | reflexivity].
Qed.

Lemma author_line_has_dash (ucd : UnicodeData) (s : str) :
  re_match (quote_author_pattern ucd) s = true ->
  factor_of [EM_DASH] s \/ factor_of (lit "-") s.
Proof.
  intro H. apply re_match_spec in H. destruct H as [p [q [-> H]]].
  unfold quote_author_pattern in H.
  inversion H as [| |? ? w s2 Hw H2| | | |]; subst.
  inversion H2 as [| |? ? sg s3 Hg H3| | | |]; subst.
  inversion Hg as [|? d Hd| | | | |]; subst.
  unfold one_of in Hd. cbn [existsb] in Hd.
  rewrite !orb_true_iff, !N.eqb_eq in Hd.
  destruct Hd as [-> | [-> | Hd]]; [left | right | discriminate];
    exists w, (s3 ++ q); rewrite <- !app_assoc; reflexivity.
Qed.

(** X20.  On what [run_ocr] returns when the cache gives nothing, a line with a
    quote marker puts that marker in the full text: if the attribution
    pattern is found, or the quote-marker rule of [score_quote] has a line
    to pay for, then [quote_mark_count] is at least 1. *)
Theorem run_ocr_quote_lines_bring_quote_marks (ucd : UnicodeData)
    (cache : CacheRead) (t : option str) (r : OcrResult) :
  cache_missed cache ->
  run_ocr ucd cache t = Some r ->
  let f := compute_features ucd r in
  (has_quote_author_pattern f = true -> (1 <= quote_mark_count f)%Z)
  /\ (existsb (quote_line_qualifies ucd) (lines r) = true ->
      (1 <= quote_mark_count f)%Z).
Proof.
  intros Hc E f. subst f.
  assert (Hf : forall l, In l (lines r) -> factor_of l (full_text r)).
  { rewrite (run_ocr_missed ucd t Hc) in E. injection E as <-.
    destruct t as [raw|]; [|intros l []].
    intros l Hl. apply (ocr_result_of_lines ucd raw l Hl). }
  assert (Hm : forall m l, In m QUOTE_MARKERS -> In l (lines r) ->
                 factor_of m l ->
                 (1 <= quote_mark_count (compute_features ucd r))%Z).
  { intros m l Hm Hl Hml. unfold compute_features. cbn [quote_mark_count].
    apply count_if_witness with (x := m); [exact Hm|].
    apply contains_spec. apply (factor_trans Hml (Hf l Hl)). }
  unfold compute_features at 1 3. cbn [has_quote_author_pattern].
  split.
  - intro H. unfold Py.any in H. apply existsb_exists in H.
    destruct H as [l [Hl Hmatch]].
    destruct (author_line_has_dash ucd l Hmatch) as [Hd | Hd].
    + apply (Hm [EM_DASH] l); [left; reflexivity | exact Hl | exact Hd].
    + apply (Hm (lit "-") l); [right; left; reflexivity | exact Hl | exact Hd].
  - intro H. apply existsb_exists in H. destruct H as [l [Hl Hq]].
    unfold quote_line_qualifies in Hq. apply andb_true_iff in Hq.
    destruct Hq as [Hq _]. unfold Py.any in Hq.
    apply existsb_exists in Hq. destruct Hq as [m [Hm' Hc']].
    apply (Hm m l Hm' Hl). apply contains_spec. exact Hc'.
Qed.

(** * What the classifier does not read *)

(** X9.  The full text, [has_steps_section] and [quote_mark_count] have no
    part in the decision: two feature records that agree on the lines and
    on every other field get the same scores and the same answer. *)
Theorem classify_ignores_unscored_fields (ucd : UnicodeData) (f1 f2 : Features)
    (t : Q) :
  same_scored_fields f1 f2 ->
  classify ucd f1 t = classify ucd f2 t.
Proof.
  intros [Hl [Hy [Hu [Hv [Hw [Hb [Hi Ha]]]]]]].
  unfold classify, score_recipe, score_workout, score_quote.
  rewrite Hl, Hy, Hu, Hv, Hw, Hb, Hi, Ha. reflexivity.
Qed.

(** * The cache of [run_ocr] *)

Lemma str_eqb_eq (a b : str) : str_eqb a b = true <-> a = b.
Proof.
  unfold str_eqb. destruct (list_eq_dec N.eq_dec a b); split; congruence.
Qed.

Lemma str_eqb_refl (a : str) : str_eqb a a = true.
Proof. apply str_eqb_eq. reflexivity. Qed.

Lemma str_eqb_neq (a b : str) : a <> b -> str_eqb a b = false.
Proof.
  intro H. destruct (str_eqb a b) eqn:E; [|reflexivity].
  apply str_eqb_eq in E. contradiction.
Qed.

Lemma cache_write_other_stem (codec : JsonCodec) (dir : CacheDir)
    (stem k : str) (r : OcrResult) (w : WriteOutcome) :
  k <> stem ->
  cache_file (cache_write codec dir stem r w) k = cache_file dir k.
Proof.
  intro Hk. destruct w; cbn [cache_write cache_file]; try reflexivity;
    rewrite (str_eqb_neq (not_eq_sym Hk)); reflexivity.
Qed.


(** * The loop of [evaluate_dataset] *)

Import Eval.

Lemma classify_label (ucd : UnicodeData) (f : Features) (t : Q)
    (res : ClassificationResult) :
  classify ucd f t = Some res -> In (lit (item_type res)) label_order.
Proof.
  intro E. destruct (classify_cases ucd f t) as [bt [bs [E' Hsel]]].
  rewrite E in E'. injection E' as ->. cbn [item_type].
  destruct (Py.Qlt_bool bs t).
  - right; right; right; left. reflexivity.
  - destruct Hsel as [[-> _] | [[-> _] | [-> _]]];
      [left | right; left | right; right; left]; reflexivity.
Qed.

Lemma predict_label (ucd : UnicodeData) (codec : JsonCodec)
    (dir dir' : CacheDir) (obs : Observed)
    (t : Q) (res : ClassificationResult) :
  predict ucd codec dir obs t = (Some res, dir') ->
  In (lit (item_type res)) label_order.
Proof.
  unfold predict.
  destruct (run_ocr_io ucd codec dir (image_stem obs) (engine_text obs)
              (write_outcome obs)) as [[r|] d]; cbn [Py.bind].
  - intro E. injection E as E _. eapply classify_label. exact E.
  - discriminate.
Qed.

Lemma evaluate_loop_invariant (ucd : UnicodeData) (codec : JsonCodec)
    (threshold : Q) (rows : list (Row * Observed)) :
  forall dir tl pl tl' pl' dir',
    evaluate_loop ucd codec threshold rows dir tl pl = (tl', pl', dir') ->
    List.length tl = List.length pl ->
    Forall (fun l => In l label_order) tl ->
    Forall (fun l => In l label_order) pl ->
    List.length tl' = List.length pl'
    /\ (List.length tl' <= List.length tl + List.length rows)%nat
    /\ Forall (fun l => In l label_order) tl'
    /\ Forall (fun l => In l label_order) pl'.
Proof.
  induction rows as [|[row obs] rows IH];
    intros dir tl pl tl' pl' dir' E Hlen Htl Hpl; cbn [evaluate_loop] in E.
  - injection E as <- <- _. repeat split; auto. lia.
  - cbn [List.length].
    destruct (existsb (str_eqb (strip ucd (lower ucd (true_label row))))
                label_order) eqn:Elabel; cbn [negb] in E.
    + destruct (image_exists obs); cbn [negb] in E.
      * destruct (predict ucd codec dir obs threshold) as [[res|] d] eqn:Ep.
        -- apply IH in E.
           ++ destruct E as [H1 [H2 [H3 H4]]]. repeat split; auto.
              rewrite length_app in H2. cbn in H2. lia.
           ++ rewrite !length_app. cbn. lia.
           ++ apply Forall_app. split; [exact Htl|].
              constructor; [|constructor].
              apply existsb_exists in Elabel.
              destruct Elabel as [l [Hl Heq]].
              apply str_eqb_eq in Heq. rewrite Heq. exact Hl.
           ++ apply Forall_app. split; [exact Hpl|].
              constructor; [|constructor]. eapply predict_label. exact Ep.
        -- apply IH in E; auto.
           destruct E as [H1 [H2 [H3 H4]]]. repeat split; auto. lia.
      * apply IH in E; auto.
        destruct E as [H1 [H2 [H3 H4]]]. repeat split; auto. lia.
    + apply IH in E; auto.
      destruct E as [H1 [H2 [H3 H4]]]. repeat split; auto. lia.
Qed.


(** * The further statements, at concrete inputs *)

Lemma latin1_only_consistent : consistent_classes latin1_only.
Proof.
  split; [|split; reflexivity].
  intro c. unfold isspace, isdecimal.
  destruct (c <? 256)%N; [|discriminate].
  unfold latin1_isspace, latin1_isdecimal, in_range.
  rewrite !orb_true_iff, !andb_true_iff, !N.leb_le, !N.eqb_eq.
  intro H. apply andb_false_iff. rewrite !N.leb_gt. lia.
Qed.

Lemma classify_above_ten_is_none_witness :
  10 < 11
  /\ exists res,
       classify latin1_only top_recipe_feats 11 = Some res
       /\ item_type res = "none"%string.
Proof.
  split; [reflexivity|].
  apply (@classify_above_ten_is_none latin1_only top_recipe_feats 11).
  reflexivity.
Defined.

Lemma classify_threshold_monotone_witness :
  exists r r',
    classify latin1_only top_recipe_feats 5 = Some r
    /\ classify latin1_only top_recipe_feats 3 = Some r'
    /\ 3 <= 5
    /\ (item_type r <> "none"%string -> item_type r' = item_type r)
    /\ (item_type r' = "none"%string -> item_type r = "none"%string).
Proof.
  eexists. eexists.
  split; [vm_compute; reflexivity|].
  split; [vm_compute; reflexivity|].
  split; [vm_compute; discriminate|].
  apply (@classify_threshold_monotone latin1_only top_recipe_feats 5 3).
  - vm_compute. reflexivity.
  - vm_compute. reflexivity.
  - vm_compute. discriminate.
Defined.

Lemma classify_scores_lookup_witness :
  exists r,
    classify latin1_only top_recipe_feats 5 = Some r
    /\ (item_type r = "none"%string ->
        Py.dict_get (scores r) (item_type r) = None)
    /\ (item_type r <> "none"%string ->
        exists s,
          Py.dict_get (scores r) (item_type r) = Some s
          /\ 5 <= s
          /\ score_recipe latin1_only top_recipe_feats <= s
          /\ score_workout latin1_only top_recipe_feats <= s
          /\ score_quote latin1_only top_recipe_feats <= s).
Proof.
  eexists.
  split; [vm_compute; reflexivity|].
  apply (@classify_scores_lookup latin1_only top_recipe_feats 5).
  vm_compute. reflexivity.
Defined.

Lemma score_recipe_cooking_verbs_step_witness :
  same_but_cooking_verbs (feats_of [] 0 0 1 0 0 false false 0)
    (feats_of [] 0 0 2 0 0 false false 0)
  /\ score_recipe latin1_only (feats_of [] 0 0 2 0 0 false false 0) ==
       score_recipe latin1_only (feats_of [] 0 0 1 0 0 false false 0) + 2.
Proof.
  assert (H : same_but_cooking_verbs (feats_of [] 0 0 1 0 0 false false 0)
                (feats_of [] 0 0 2 0 0 false false 0)).
  { unfold same_but_cooking_verbs. cbn. tauto. }
  split; [exact H|].
  apply (@score_recipe_cooking_verbs_step latin1_only
           (feats_of [] 0 0 1 0 0 false false 0)
           (feats_of [] 0 0 2 0 0 false false 0) H).
  cbn. discriminate.
Defined.

Lemma score_recipe_monotone_witness :
  recipe_evidence_le (feats_of [lit "Serves 4"] 0 0 0 0 0 false false 0)
    top_recipe_feats
  /\ score_recipe latin1_only (feats_of [lit "Serves 4"] 0 0 0 0 0 false false 0)
     <= score_recipe latin1_only top_recipe_feats.
Proof.
  assert (H : recipe_evidence_le
                (feats_of [lit "Serves 4"] 0 0 0 0 0 false false 0)
                top_recipe_feats).
  { unfold recipe_evidence_le. cbn.
    repeat split; try reflexivity; try discriminate. }
  split; [exact H|].
  apply (@score_recipe_monotone latin1_only _ _ H).
Defined.

Lemma score_workout_monotone_witness :
  workout_evidence_le
    (feats_of [lit "5 sets 3x10"; lit "12 reps"] 0 0 0 0 0 true false 0)
    top_workout_feats
  /\ score_workout latin1_only
       (feats_of [lit "5 sets 3x10"; lit "12 reps"] 0 0 0 0 0 true false 0)
     <= score_workout latin1_only top_workout_feats.
Proof.
  assert (H : workout_evidence_le
                (feats_of [lit "5 sets 3x10"; lit "12 reps"]
                   0 0 0 0 0 true false 0)
                top_workout_feats).
  { unfold workout_evidence_le. cbn.
    repeat split; try reflexivity; try discriminate. }
  split; [exact H|].
  apply (@score_workout_monotone latin1_only _ _ H).
Defined.

Lemma avg_line_length_between_witness :
  Forall (fun l => (12 <= len l <= 17)%Z) (lines Examples.workout_ocr)
  /\ lines Examples.workout_ocr <> []
  /\ inject_Z 12
     <= avg_line_length (compute_layout_features latin1_only Examples.workout_ocr)
     <= inject_Z 17.
Proof.
  assert (H : Forall (fun l => (12 <= len l <= 17)%Z)
                (lines Examples.workout_ocr)).
  { cbn. repeat constructor; discriminate. }
  assert (H' : lines Examples.workout_ocr <> []) by discriminate.
  split; [exact H|]. split; [exact H'|].
  apply (@avg_line_length_between latin1_only Examples.workout_ocr 12 17 H H').
Defined.

Lemma text_terms_found_in_any_case_witness :
  lit "2KG flour" = lit "2" ++ lit "KG" ++ lit " flour"
  /\ map latin1_lower (lit "KG") = lit "kg"
  /\ (1 <= num_units
            (compute_features latin1_only
               {| full_text := lit "2KG flour"; lines := [] |}))%Z.
Proof.
  split; [reflexivity|]. split; [reflexivity|].
  apply (proj1 (@text_terms_found_in_any_case latin1_only
                  {| full_text := lit "2KG flour"; lines := [] |}
                  (lit "kg") (lit "KG") (lit "2") (lit " flour")
                  eq_refl eq_refl)).
  cbn. tauto.
Defined.

Lemma line_terms_found_in_any_case_witness :
  In ([] ++ lit "Legs" ++ lit " workout") (lines Examples.workout_ocr)
  /\ map latin1_lower (lit "Legs") = lit "legs"
  /\ (1 <= num_body_parts
            (compute_features latin1_only Examples.workout_ocr))%Z.
Proof.
  assert (H : In ([] ++ lit "Legs" ++ lit " workout")
                (lines Examples.workout_ocr)).
  { cbn. tauto. }
  split; [exact H|]. split; [reflexivity|].
  apply (proj2 (proj2 (@line_terms_found_in_any_case latin1_only
                         Examples.workout_ocr
                         (lit "legs") (lit "Legs") [] (lit " workout")
                         H eq_refl))).
  cbn. tauto.
Defined.

Lemma bullet_and_numbered_lines_disjoint_witness :
  consistent_classes latin1_only
  /\ (let lf := compute_layout_features latin1_only Examples.layout_sample_ocr in
      (bullet_lines lf + numbered_lines lf <= line_count lf)%Z).
Proof.
  split; [exact latin1_only_consistent|].
  apply (@bullet_and_numbered_lines_disjoint latin1_only
           Examples.layout_sample_ocr latin1_only_consistent).
Defined.

Lemma hyphen_attribution_counts_as_bullet_witness :
  Forall (fun l => ~ In EM_DASH l) [lit "- Steve Jobs"]
  /\ (1 <= bullet_lines
            (layout (compute_features latin1_only
                       {| full_text := lit "- Steve Jobs";
                          lines := [lit "- Steve Jobs"] |})))%Z.
Proof.
  assert (H : Forall (fun l => ~ In EM_DASH l) [lit "- Steve Jobs"]).
  { constructor; [|constructor]. cbn. intro H.
    repeat (destruct H as [H | H]; [discriminate H|]). exact H. }
  split; [exact H|].
  apply (proj2 (@hyphen_attribution_counts_as_bullet latin1_only
                  {| full_text := lit "- Steve Jobs";
                     lines := [lit "- Steve Jobs"] |} H)).
  vm_compute. reflexivity.
Defined.

Lemma run_ocr_sample :
  run_ocr latin1_only NoCacheFile (Some raw_sample) = Some raw_sample_result.
Proof. vm_compute. reflexivity. Qed.

Lemma run_ocr_lines_clean_witness :
  cache_missed NoCacheFile
  /\ run_ocr latin1_only NoCacheFile (Some raw_sample) = Some raw_sample_result
  /\ trimmed latin1_only (full_text raw_sample_result)
  /\ Forall (fun l => l <> [] /\ trimmed latin1_only l
                      /\ Forall (fun c => islinebreak c = false) l)
       (lines raw_sample_result).
Proof.
  split; [left; reflexivity|]. split; [exact run_ocr_sample|].
  apply (@run_ocr_lines_clean latin1_only NoCacheFile (Some raw_sample)
           raw_sample_result (or_introl eq_refl) run_ocr_sample).
Defined.

Lemma run_ocr_lines_occur_in_text_witness :
  cache_missed NoCacheFile
  /\ run_ocr latin1_only NoCacheFile (Some raw_sample) = Some raw_sample_result
  /\ Forall (fun l => factor_of l (full_text raw_sample_result))
       (lines raw_sample_result).
Proof.
  split; [left; reflexivity|]. split; [exact run_ocr_sample|].
  apply (@run_ocr_lines_occur_in_text latin1_only NoCacheFile (Some raw_sample)
           raw_sample_result (or_introl eq_refl) run_ocr_sample).
Defined.

Lemma run_ocr_avg_zero_iff_no_lines_witness :
  cache_missed NoCacheFile
  /\ run_ocr latin1_only NoCacheFile (Some raw_sample) = Some raw_sample_result
  /\ (let lf := compute_layout_features latin1_only raw_sample_result in
      line_count lf = Z.of_nat (List.length (lines raw_sample_result))
      /\ (avg_line_length lf == 0 <-> lines raw_sample_result = [])
      /\ (lines raw_sample_result <> [] -> 1 <= avg_line_length lf)).
Proof.
  split; [left; reflexivity|]. split; [exact run_ocr_sample|].
  apply (@run_ocr_avg_zero_iff_no_lines latin1_only NoCacheFile
           (Some raw_sample) raw_sample_result (or_introl eq_refl)
           run_ocr_sample).
Defined.

Lemma run_ocr_blank_or_failed_is_none_witness :
  cache_missed Undecodable
  /\ forallb (isspace latin1_only) (lit "  " ++ [10; 9]%N) = true
  /\ run_ocr latin1_only Undecodable (Some (lit "  " ++ [10; 9]%N))
     = Some {| full_text := []; lines := [] |}
  /\ exists res,
       classify latin1_only
         (compute_features latin1_only {| full_text := []; lines := [] |})
         default_threshold = Some res
       /\ item_type res = "none"%string.
Proof.
  split; [right; reflexivity|]. split; [reflexivity|].
  apply (@run_ocr_blank_or_failed_is_none latin1_only Undecodable
           (Some (lit "  " ++ [10; 9]%N)) (or_intror eq_refl)).
  right. exists (lit "  " ++ [10; 9]%N). split; reflexivity.
Defined.

Lemma run_ocr_quote_lines_bring_quote_marks_witness :
  cache_missed NoCacheFile
  /\ run_ocr latin1_only NoCacheFile (Some (lit " - Steve Jobs "))
     = Some {| full_text := lit "- Steve Jobs"; lines := [lit "- Steve Jobs"] |}
  /\ has_quote_author_pattern
       (compute_features latin1_only
          {| full_text := lit "- Steve Jobs"; lines := [lit "- Steve Jobs"] |})
     = true
  /\ (1 <= quote_mark_count
            (compute_features latin1_only
               {| full_text := lit "- Steve Jobs";
                  lines := [lit "- Steve Jobs"] |}))%Z.
Proof.
  split; [left; reflexivity|].
  split; [vm_compute; reflexivity|].
  split; [vm_compute; reflexivity|].
  apply (proj1 (@run_ocr_quote_lines_bring_quote_marks latin1_only NoCacheFile
                  (Some (lit " - Steve Jobs "))
                  {| full_text := lit "- Steve Jobs";
                     lines := [lit "- Steve Jobs"] |}
                  (or_introl eq_refl) eq_refl)).
  vm_compute. reflexivity.
Defined.

Lemma classify_ignores_unscored_fields_witness :
  same_scored_fields (Examples.with_ingredients false) unscored_variant
  /\ full_text (ocr (Examples.with_ingredients false))
     <> full_text (ocr unscored_variant)
  /\ has_steps_section (Examples.with_ingredients false)
     <> has_steps_section unscored_variant
  /\ quote_mark_count (Examples.with_ingredients false)
     <> quote_mark_count unscored_variant
  /\ classify latin1_only (Examples.with_ingredients false) 5
     = classify latin1_only unscored_variant 5.
Proof.
  assert (H : same_scored_fields (Examples.with_ingredients false)
                unscored_variant).
  { unfold same_scored_fields. repeat split; reflexivity. }
  split; [exact H|].
  split; [discriminate|]. split; [discriminate|]. split; [discriminate|].
  apply (@classify_ignores_unscored_fields latin1_only _ _ 5 H).
Defined.


